(** * Yield curve simulation: a shallow embedding of [app.py]

    The two transforms of the program, [simulate_yield_curve] and
    [reverse_engineer_factors], are embedded as Rocq functions over
    insertion-ordered dictionaries, and the properties of the
    specification are stated and settled about them.

    Numbers.  Python floats are modelled by exact rationals extended with
    the two infinities and a not-a-number value ([pyfloat]).  Arithmetic on
    finite values is exact (binary64 rounding error, overflow and the sign
    of zero are not modelled); the special values follow IEEE 754.  The
    statements about [reverse_engineer_factors] therefore speak of the
    record it returns, or of the exception it raises, in the operations of
    the code; none promises that the regression accepts its sample.

    Failure.  A Python exception is a value of [exn]; a computation that may
    raise is a [result]. *)

From Stdlib Require Import List String Ascii Bool ZArith QArith Qround Qpower Lia Lqa.
Import ListNotations.
Open Scope string_scope.
Open Scope list_scope.

(** ** Exceptions and the error monad *)

Inductive exn : Type :=
| KeyError (key : string)
| ValueError.

Inductive result (A : Type) : Type :=
| Ok (a : A)
| Raise (e : exn).
Arguments Ok {A} a.
Arguments Raise {A} e.

Definition bind {A B : Type} (m : result A) (k : A -> result B) : result B :=
  match m with
  | Ok a => k a
  | Raise e => Raise e
  end.

Notation "x <- m ;; k" := (bind m (fun x => k))
  (at level 61, m at next level, right associativity).

(** A [for] loop whose body may raise: the accumulator is threaded through
    the iterations, and the first exception ends the loop. *)
Fixpoint for_each {A S : Type} (l : list A) (s : S)
    (body : S -> A -> result S) : result S :=
  match l with
  | [] => Ok s
  | a :: l' => s' <- body s a ;; for_each l' s' body
  end.

(** ** Floats *)

Module Float.

Local Open Scope Q_scope.

Inductive pyfloat : Type :=
| Fin (q : Q)
| PInf
| NInf
| NaN.

Definition is_finite (x : pyfloat) : bool :=
  match x with Fin _ => true | _ => false end.

Definition is_nan (x : pyfloat) : bool :=
  match x with NaN => true | _ => false end.

Definition Qltb (a b : Q) : bool :=
  match a ?= b with Lt => true | _ => false end.

(** [x + y] *)
Definition add (x y : pyfloat) : pyfloat :=
  match x, y with
  | NaN, _ | _, NaN => NaN
  | Fin a, Fin b => Fin (Qred (a + b))
  | PInf, NInf | NInf, PInf => NaN
  | PInf, _ | _, PInf => PInf
  | NInf, _ | _, NInf => NInf
  end.

(** [x - y] *)
Definition sub (x y : pyfloat) : pyfloat :=
  match x, y with
  | NaN, _ | _, NaN => NaN
  | Fin a, Fin b => Fin (Qred (a - b))
  | PInf, PInf | NInf, NInf => NaN
  | PInf, _ | _, NInf => PInf
  | NInf, _ | _, PInf => NInf
  end.

(** The infinity of the sign of [s * q], not-a-number when [q] is zero. *)
Definition inf_times (positive : bool) (q : Q) : pyfloat :=
  match q ?= 0 with
  | Eq => NaN
  | Gt => if positive then PInf else NInf
  | Lt => if positive then NInf else PInf
  end.

(** [x * y] *)
Definition mul (x y : pyfloat) : pyfloat :=
  match x, y with
  | NaN, _ | _, NaN => NaN
  | Fin a, Fin b => Fin (Qred (a * b))
  | PInf, Fin q | Fin q, PInf => inf_times true q
  | NInf, Fin q | Fin q, NInf => inf_times false q
  | PInf, PInf | NInf, NInf => PInf
  | PInf, NInf | NInf, PInf => NInf
  end.

(** [x / y] on finite operands with a non-zero divisor, the only use the
    regression makes of it; every other case is not-a-number here. *)
Definition div (x y : pyfloat) : pyfloat :=
  match x, y with
  | Fin a, Fin b => if Qeq_bool b 0 then NaN else Fin (Qred (a / b))
  | _, _ => NaN
  end.

(** [x < y]: false as soon as an operand is not-a-number. *)
Definition ltb (x y : pyfloat) : bool :=
  match x, y with
  | NaN, _ | _, NaN => false
  | Fin a, Fin b => Qltb a b
  | _, NInf => false
  | NInf, _ => true
  | PInf, _ => false
  | _, PInf => true
  end.

(** [x == y]: not-a-number is equal to nothing, itself included. *)
Definition eqb (x y : pyfloat) : bool :=
  match x, y with
  | Fin a, Fin b => Qeq_bool a b
  | PInf, PInf | NInf, NInf => true
  | _, _ => false
  end.

(** [x <= y] *)
Definition leb (x y : pyfloat) : bool := ltb x y || eqb x y.

(** [x > y] *)
Definition gtb (x y : pyfloat) : bool := ltb y x.

(** The builtin [max(a, b)]: the first argument is kept unless the second
    compares strictly greater. *)
Definition max (a b : pyfloat) : pyfloat := if gtb b a then b else a.

(** The builtin [min(a, b)]: the first argument is kept unless the second
    compares strictly smaller. *)
Definition min (a b : pyfloat) : pyfloat := if ltb b a then b else a.

(** The integer nearest to [q], a tie going to the even neighbour. *)
Definition round_half_even (q : Q) : Z :=
  let f := Qfloor q in
  match ((q - inject_Z f) ?= (1 # 2))%Q with
  | Lt => f
  | Gt => (f + 1)%Z
  | Eq => if Z.even f then f else (f + 1)%Z
  end.

(** The builtin [round(x, ndigits)]: infinities and not-a-number round to
    themselves, a finite value to the nearest multiple of [10^-ndigits]. *)
Definition round (x : pyfloat) (ndigits : Z) : pyfloat :=
  match x with
  | Fin q =>
      let p := ((10 # 1) ^ ndigits)%Q in
      Fin (Qred (inject_Z (round_half_even (q * p)) / p))
  | _ => x
  end.

(** The order [x <= y] as a proposition, for statements. *)
Definition le (x y : pyfloat) : Prop := leb x y = true.

End Float.

Import Float.

Declare Scope float_scope.
Delimit Scope float_scope with float.
Bind Scope float_scope with pyfloat.
Infix "+" := Float.add : float_scope.
Infix "-" := Float.sub : float_scope.
Infix "*" := Float.mul : float_scope.
Infix "/" := Float.div : float_scope.
Infix "<?" := Float.ltb (at level 70) : float_scope.
Infix ">?" := Float.gtb (at level 70) : float_scope.
Infix "<=?" := Float.leb (at level 70) : float_scope.
Infix "==?" := Float.eqb (at level 70) : float_scope.

(** ** Dictionaries

    A Python [dict] keeps its keys in insertion order and holds each key
    once.  It is modelled by an association list whose keys are compared
    with the equality test of the key type. *)

Section Dict.

Context {K V : Type}.
Variable key_eqb : K -> K -> bool.

Definition dict : Type := list (K * V).

Definition keys (d : dict) : list K := map fst d.

Definition items (d : dict) : list (K * V) := d.

(** [d.get(k)] *)
Fixpoint dict_get (d : dict) (k : K) : option V :=
  match d with
  | [] => None
  | (k', v) :: d' => if key_eqb k' k then Some v else dict_get d' k
  end.

(** [d[k] = v]: the value of an existing key is replaced where the key
    stands, a new key is added at the end. *)
Fixpoint dict_set (d : dict) (k : K) (v : V) : dict :=
  match d with
  | [] => [(k, v)]
  | (k', v') :: d' =>
      if key_eqb k' k then (k', v) :: d' else (k', v') :: dict_set d' k v
  end.

End Dict.

Arguments dict K V : clear implicits.

(** [d[k]] on a dictionary with string keys *)
Definition getitem {V : Type} (d : dict string V) (k : string) : result V :=
  match dict_get String.eqb d k with
  | Some v => Ok v
  | None => Raise (KeyError k)
  end.

(** ** The program *)

Definition curve : Type := dict string pyfloat.

Definition tenor_to_years : dict string pyfloat :=
  [ ("3M", Fin (1 # 4));
    ("6M", Fin (1 # 2));
    ("1Y", Fin 1);
    ("2Y", Fin 2);
    ("3Y", Fin 3);
    ("4Y", Fin 4);
    ("5Y", Fin 5);
    ("7Y", Fin 7) ].

Definition simulate_yield_curve (base_curve : curve) (pivot_tenor : string)
    (shift_value short_end_factor long_end_factor
     short_end_cap long_end_cap : pyfloat) : result curve :=
  pivot_year <- getitem tenor_to_years pivot_tenor ;;
  pivot_rate <- getitem base_curve pivot_tenor ;;
  for_each (items base_curve) []
    (fun simulated_curve '(tenor, original_rate) =>
       t_year <- getitem tenor_to_years tenor ;;
       let delta_years := (t_year - pivot_year)%float in
       let new_rate :=
         if String.eqb tenor pivot_tenor then
           (pivot_rate + shift_value)%float
         else if (t_year <? pivot_year)%float then
           let raw_change := (shift_value + delta_years * short_end_factor)%float in
           let capped_change := Float.max raw_change short_end_cap in
           (original_rate + capped_change)%float
         else
           let raw_change := (shift_value + delta_years * long_end_factor)%float in
           let capped_change := Float.min raw_change long_end_cap in
           (original_rate + capped_change)%float in
       Ok (dict_set String.eqb simulated_curve tenor (Float.round new_rate 6))).

Definition default_base_curve : curve :=
  [ ("3M", Fin (30 # 1000));
    ("6M", Fin (31 # 1000));
    ("1Y", Fin (32 # 1000));
    ("2Y", Fin (34 # 1000));
    ("3Y", Fin (36 # 1000));
    ("4Y", Fin (38 # 1000));
    ("5Y", Fin (41 # 1000));
    ("7Y", Fin (45 # 1000)) ].

(** *** The regression library

    [sklearn.linear_model.LinearRegression] is a library the program
    imports; only the fitted slope [coef_[0]] is read by the program. *)

Record LinearRegression : Type := {
  coef_ : list pyfloat;
  intercept_ : pyfloat
}.

Definition fsum (l : list pyfloat) : pyfloat :=
  fold_left Float.add l (Fin 0).

Definition mean (l : list pyfloat) : pyfloat :=
  (fsum l / Fin (inject_Z (Z.of_nat (List.length l))))%float.

Fixpoint dot (u v : list pyfloat) : pyfloat :=
  match u, v with
  | a :: u', b :: v' => (a * b + dot u' v')%float
  | _, _ => Fin 0
  end.

(** Modelled from the spec: [LinearRegression().fit(X, y)] is the ordinary
    least-squares line with an intercept over a single predictor column
    (spec, 4.3 step 3), here in exact arithmetic: the slope is [Sxy / Sxx]
    over the centred data, and zero when the centred predictor vanishes
    (the minimum-norm solution, as for a single sample).  The library
    validates its input and raises [ValueError] on an empty sample, on
    samples of different lengths and on any value that is not finite. *)
Definition LinearRegression_fit (X : list (list pyfloat)) (y : list pyfloat)
  : result LinearRegression :=
  if negb (forallb (forallb is_finite) X && forallb is_finite y) then
    Raise ValueError
  else if negb (List.length X =? List.length y)%nat then Raise ValueError
  else
    match X with
    | [] => Raise ValueError
    | _ :: _ =>
        let x := map (fun row => hd (Fin 0) row) X in
        let x_mean := mean x in
        let y_mean := mean y in
        let dx := map (fun xi => (xi - x_mean)%float) x in
        let dy := map (fun yi => (yi - y_mean)%float) y in
        let sxx := dot dx dx in
        let sxy := dot dx dy in
        let slope := if (sxx ==? Fin 0)%float then Fin 0 else (sxy / sxx)%float in
        Ok {| coef_ := [slope];
              intercept_ := (y_mean - slope * x_mean)%float |}
    end.

(** *** Reverse engineering *)

Record factors : Type := {
  pivot_tenor : string;
  shift_value : pyfloat;
  short_end_factor : pyfloat;
  long_end_factor : pyfloat;
  short_end_cap : pyfloat;
  long_end_cap : pyfloat
}.

(** [d[k] += 1] on a [defaultdict(int)] with float keys *)
Definition incr (d : dict pyfloat Z) (k : pyfloat) : dict pyfloat Z :=
  let count := match dict_get Float.eqb d k with
               | Some c => c
               | None => 0%Z
               end in
  dict_set Float.eqb d k (count + 1)%Z.

(** [next((val for val, count in d.items() if count > 1), default)] *)
Definition next_repeated (d : dict pyfloat Z) (default : pyfloat) : pyfloat :=
  match find (fun '(_, count) => (1 <? count)%Z) (items d) with
  | Some (val, _) => val
  | None => default
  end.

(** The samples of the two regressions, [(short_x, short_y, long_x, long_y)]. *)
Definition samples : Type :=
  (list (list pyfloat) * list pyfloat * list (list pyfloat) * list pyfloat)%type.

Definition reverse_engineer_factors (base_curve simulated_curve : curve)
    (pivot_tenor : string) : result factors :=
  let tenor_to_years : dict string pyfloat :=
    [ ("3M", Fin (1 # 4));
      ("6M", Fin (1 # 2));
      ("1Y", Fin 1);
      ("2Y", Fin 2);
      ("3Y", Fin 3);
      ("4Y", Fin 4);
      ("5Y", Fin 5);
      ("7Y", Fin 7) ] in
  pivot_year <- getitem tenor_to_years pivot_tenor ;;
  base_pivot_rate <- getitem base_curve pivot_tenor ;;
  sim_pivot_rate <- getitem simulated_curve pivot_tenor ;;
  let shift_value := (sim_pivot_rate - base_pivot_rate)%float in
  xy <- for_each (keys base_curve) (([], [], [], []) : samples)
    (fun '(short_x, short_y, long_x, long_y) tenor =>
       if String.eqb tenor pivot_tenor then
         Ok (short_x, short_y, long_x, long_y)
       else
         t_year <- getitem tenor_to_years tenor ;;
         let delta_years := (t_year - pivot_year)%float in
         base_rate <- getitem base_curve tenor ;;
         sim_rate <- getitem simulated_curve tenor ;;
         let implied_change :=
           (sim_rate - (base_pivot_rate + shift_value))%float in
         if (t_year <? pivot_year)%float then
           Ok (short_x ++ [[delta_years]], short_y ++ [implied_change],
               long_x, long_y)
         else
           Ok (short_x, short_y,
               long_x ++ [[delta_years]], long_y ++ [implied_change])) ;;
  let '(short_x, short_y, long_x, long_y) := xy in
  short_model <-
    match short_x with
    | _ :: _ => m <- LinearRegression_fit short_x short_y ;; Ok (Some m)
    | [] => Ok None
    end ;;
  long_model <-
    match long_x with
    | _ :: _ => m <- LinearRegression_fit long_x long_y ;; Ok (Some m)
    | [] => Ok None
    end ;;
  let short_end_factor :=
    match short_model with
    | Some m => nth 0 (coef_ m) NaN
    | None => Fin 0
    end in
  let long_end_factor :=
    match long_model with
    | Some m => nth 0 (coef_ m) NaN
    | None => Fin 0
    end in
  changes <- for_each (keys base_curve) ([] : dict pyfloat pyfloat)
    (fun changes tenor =>
       if String.eqb tenor pivot_tenor then Ok changes
       else
         t_year <- getitem tenor_to_years tenor ;;
         let delta_years := (t_year - pivot_year)%float in
         let predicted_change :=
           (shift_value +
            delta_years * (if (t_year <? pivot_year)%float
                           then short_end_factor else long_end_factor))%float in
         sim_rate <- getitem simulated_curve tenor ;;
         let actual_change := (sim_rate - base_pivot_rate)%float in
         Ok (dict_set Float.eqb changes t_year actual_change)) ;;
  let '(short_changes, long_changes) :=
    fold_left
      (fun '(short_changes, long_changes) '(key, change) =>
         if (key <? pivot_year)%float then
           (incr short_changes (Float.round change 8), long_changes)
         else if (key >? pivot_year)%float then
           (short_changes, incr long_changes (Float.round change 8))
         else (short_changes, long_changes))
      (items changes) (([], []) : dict pyfloat Z * dict pyfloat Z) in
  let short_end_cap := next_repeated short_changes NInf in
  let long_end_cap := next_repeated long_changes PInf in
  Ok {| pivot_tenor := pivot_tenor;
        shift_value := Float.round shift_value 6;
        short_end_factor := Float.round short_end_factor 6;
        long_end_factor := Float.round long_end_factor 6;
        short_end_cap := Float.round short_end_cap 6;
        long_end_cap := Float.round long_end_cap 6 |}.

(** *** Plotting *)

(** A list comprehension [[f(t) for t in l]] whose element may raise. *)
Fixpoint comprehension {A B : Type} (l : list A) (f : A -> result B)
  : result (list B) :=
  match l with
  | [] => Ok []
  | a :: l' => b <- f a ;; bs <- comprehension l' f ;; Ok (b :: bs)
  end.

(** The three series of a chart, [(x, y_base, y_sim)]. *)
Definition series : Type :=
  (list pyfloat * list pyfloat * list pyfloat)%type.

(** [plot_curves] builds the three series and hands them to the plotting
    library.  The model returns the series; the drawing calls on the
    figure are outside it. *)
Definition plot_curves (base_curve simulated_curve : curve) : result series :=
  x <- comprehension (keys base_curve)
         (fun t => getitem tenor_to_years t) ;;
  y_base <- comprehension (keys base_curve)
              (fun t => getitem base_curve t) ;;
  y_sim <- comprehension (keys base_curve)
             (fun t => getitem simulated_curve t) ;;
  Ok (x, y_base, y_sim).

(** *** The application

    The script reads every number from a widget.  [number_input label
    value] stands for [st.number_input(label, value=value, ...)]: the
    number the user has entered for that label, [value] being the default
    shown.  The pivot is the entry of the select box, one of the keys of
    [custom_base]. *)

Section App.

Variable number_input : string -> pyfloat -> pyfloat.

(** The base curve of the form: one input per tenor of the default curve. *)
Definition custom_base : result curve :=
  for_each (keys default_base_curve) []
    (fun custom_base tenor =>
       value <- getitem default_base_curve tenor ;;
       Ok (dict_set String.eqb custom_base tenor
             (number_input ("Base Yield for " ++ tenor)%string value))).

(** The simulated curve of the form, one input per tenor of [custom_base],
    defaulting to the base rate plus 0.001. *)
Definition sim_curve (custom_base : curve) : result curve :=
  for_each (keys custom_base) []
    (fun sim_curve tenor =>
       base_rate <- getitem custom_base tenor ;;
       Ok (dict_set String.eqb sim_curve tenor
             (number_input ("Simulated Yield for " ++ tenor)%string
                (base_rate + Fin (1 # 1000))%float))).

(** The mode "Simulate Curve" once the button is pressed: the simulated
    curve that is written out and the series that are plotted. *)
Definition simulate_mode (pivot_tenor : string) : result (curve * series) :=
  custom_base <- custom_base ;;
  let shift := number_input "Shift Value" (Fin (1 # 1000)) in
  let short_factor := number_input "Short End Factor" (Fin (2 # 1000)) in
  let long_factor := number_input "Long End Factor" (Fin (3 # 1000)) in
  let short_cap := number_input "Short End Cap" (Fin 0) in
  let long_cap := number_input "Long End Cap" (Fin (15 # 10000)) in
  simulated <- simulate_yield_curve custom_base pivot_tenor shift
                 short_factor long_factor short_cap long_cap ;;
  fig <- plot_curves custom_base simulated ;;
  Ok (simulated, fig).

(** The mode "Reverse Engineer Factors" once the button is pressed. *)
Definition reverse_mode (pivot_tenor : string) : result (factors * series) :=
  custom_base <- custom_base ;;
  sim_curve <- sim_curve custom_base ;;
  results <- reverse_engineer_factors custom_base sim_curve pivot_tenor ;;
  fig <- plot_curves custom_base sim_curve ;;
  Ok (results, fig).

End App.

(** * Vocabulary of the statements *)

Definition grid : list string := keys tenor_to_years.

(** The year fraction of a tenor, for use in statements. *)
Definition years (tenor : string) : pyfloat :=
  match dict_get String.eqb tenor_to_years tenor with
  | Some y => y
  | None => NaN
  end.

(** A curve that defines a rate for every tenor of the grid, and for
    nothing else. *)
Definition total_over_grid (c : curve) : Prop :=
  NoDup (keys c) /\ forall k, In k (keys c) <-> In k grid.

Definition finite_rates (c : curve) : Prop :=
  forall k v, In (k, v) c -> is_finite v = true.

(** [c[t]], for a tenor the curve defines. *)
Definition rate_of (c : curve) (t : string) : pyfloat :=
  match dict_get String.eqb c t with
  | Some v => v
  | None => NaN
  end.

(** The tenors of the curve on the short side of the pivot (year fraction
    strictly below the pivot's), in the iteration order of the curve. *)
Definition short_side (c : curve) (pivot : string) : list string :=
  filter (fun t => (years t <? years pivot)%float) (keys c).

(** The tenors on the long side (year fraction strictly above). *)
Definition long_side (c : curve) (pivot : string) : list string :=
  filter (fun t => (years t >? years pivot)%float) (keys c).

(** The values the cap detection counts on a side:
    [round(simulated[t] - base[pivot], 8)] for each tenor of the side. *)
Definition rounded_changes (base simulated : curve) (pivot : string)
    (side : list string) : list pyfloat :=
  map (fun t => Float.round (rate_of simulated t - rate_of base pivot) 8) side.

(** The number of elements of [l] that compare equal to [v]. *)
Definition occurrences (v : pyfloat) (l : list pyfloat) : Z :=
  Z.of_nat (List.length (filter (Float.eqb v) l)).

(** The first value of [l], in order, that occurs more than once in [l];
    [default] when every value occurs once. *)
Definition first_repeated (l : list pyfloat) (default : pyfloat) : pyfloat :=
  match find (fun v => (1 <? occurrences v l)%Z) l with
  | Some v => v
  | None => default
  end.

(** [|x - y| <= tolerance] *)
Definition within (tolerance x y : pyfloat) : bool :=
  ((x - y <=? tolerance) && (y - x <=? tolerance))%float.

(** A base curve with the last tenor, 7Y, left out. *)
Definition base_without_7Y : curve :=
  [ ("3M", Fin (30 # 1000));
    ("6M", Fin (31 # 1000));
    ("1Y", Fin (32 # 1000));
    ("2Y", Fin (34 # 1000));
    ("3Y", Fin (36 # 1000));
    ("4Y", Fin (38 # 1000));
    ("5Y", Fin (41 # 1000)) ].

(** A base curve whose 3M rate is not a number. *)
Definition base_with_nan : curve :=
  [ ("3M", NaN);
    ("6M", Fin (31 # 1000));
    ("1Y", Fin (32 # 1000));
    ("2Y", Fin (34 # 1000));
    ("3Y", Fin (36 # 1000));
    ("4Y", Fin (38 # 1000));
    ("5Y", Fin (41 # 1000));
    ("7Y", Fin (45 # 1000)) ].

(** A simulated curve whose two shortest tenors both stand 0.00000123
    above the 1Y base rate. *)
Definition twice_small_change : curve :=
  [ ("3M", Fin (3200123 # 100000000));
    ("6M", Fin (3200123 # 100000000));
    ("1Y", Fin (32 # 1000));
    ("2Y", Fin (34 # 1000));
    ("3Y", Fin (36 # 1000));
    ("4Y", Fin (38 # 1000));
    ("5Y", Fin (41 # 1000));
    ("7Y", Fin (45 # 1000)) ].

(** The curve simulated from the default base curve with pivot 2Y, shift
    0.001, factors 0.002 and 0.003, caps 0.0 and 0.0015. *)
Definition scenario_simulated : curve :=
  [ ("3M", Fin (3 # 100));
    ("6M", Fin (31 # 1000));
    ("1Y", Fin (4 # 125));
    ("2Y", Fin (7 # 200));
    ("3Y", Fin (3 # 80));
    ("4Y", Fin (79 # 2000));
    ("5Y", Fin (17 # 400));
    ("7Y", Fin (93 # 2000)) ].

(** A form that is left as it is shown: every input holds its default. *)
Definition untouched_form (label : string) (value : pyfloat) : pyfloat :=
  value.

(** The record of a run that returned one, for concrete runs. *)
Definition record_of (m : result factors) : factors :=
  match m with
  | Ok r => r
  | Raise _ =>
      {| pivot_tenor := ""; shift_value := NaN; short_end_factor := NaN;
         long_end_factor := NaN; short_end_cap := NaN; long_end_cap := NaN |}
  end.

(** The records recovered from [twice_small_change] against the default
    base curve, with pivot 1Y and 6M. *)
Definition recovered_1Y : factors :=
  Eval vm_compute in
    record_of (reverse_engineer_factors default_base_curve twice_small_change "1Y").

Definition recovered_6M : factors :=
  Eval vm_compute in
    record_of (reverse_engineer_factors default_base_curve twice_small_change "6M").

(** The record recovered from the default base curve against itself, with
    pivot 1Y. *)
Definition recovered_unchanged_1Y : factors :=
  Eval vm_compute in
    record_of (reverse_engineer_factors default_base_curve default_base_curve "1Y").

(** The record recovered from [scenario_simulated] against the default
    base curve, with pivot 2Y. *)
Definition recovered_scenario_2Y : factors :=
  Eval vm_compute in
    record_of (reverse_engineer_factors default_base_curve scenario_simulated "2Y").

(** Decidable forms of the hypotheses, for concrete curves. *)

Definition mem (k : string) (l : list string) : bool :=
  existsb (String.eqb k) l.

Fixpoint nodupb (l : list string) : bool :=
  match l with
  | [] => true
  | k :: l' => negb (mem k l') && nodupb l'
  end.

Definition total_over_gridb (c : curve) : bool :=
  nodupb (keys c) && forallb (fun k => mem k grid) (keys c)
  && forallb (fun k => mem k (keys c)) grid.

Definition finite_ratesb (c : curve) : bool :=
  forallb (fun '(_, v) => is_finite v) c.

(** * Auxiliary definitions

    The loops of the program named one by one, and the closed forms the
    proofs compare them with. *)

(** The rate the loop of [simulate_yield_curve] stores for one tenor. *)
Definition simulated_rate (pivot_tenor : string)
    (pivot_rate shift_value short_end_factor long_end_factor
     short_end_cap long_end_cap : pyfloat)
    (tenor : string) (original_rate : pyfloat) : pyfloat :=
  let t_year := years tenor in
  let pivot_year := years pivot_tenor in
  let delta_years := (t_year - pivot_year)%float in
  Float.round
    (if String.eqb tenor pivot_tenor then (pivot_rate + shift_value)%float
     else if (t_year <? pivot_year)%float then
       (original_rate +
        Float.max (shift_value + delta_years * short_end_factor) short_end_cap)%float
     else
       (original_rate +
        Float.min (shift_value + delta_years * long_end_factor) long_end_cap)%float)
    6.

(** The counting dictionary built by [d[v] += 1] over [l]. *)
Definition count_all (l : list pyfloat) (d : dict pyfloat Z) : dict pyfloat Z :=
  fold_left incr l d.

(** A key of the dictionary equal to [x]. *)
Definition has_key (d : dict pyfloat Z) (x : pyfloat) : bool :=
  existsb (fun k => Float.eqb k x) (keys d).

(** Keys that are pairwise different. *)
Fixpoint distinct (ks : list pyfloat) : Prop :=
  match ks with
  | [] => True
  | k :: ks' => existsb (fun k' => Float.eqb k' k) ks' = false /\ distinct ks'
  end.

(** The outcome of the scan for a count above one, after the rest [l] of
    the values has been counted into [d]: the keys of [d] come first, with
    their final counts, then the new values of [l] in order. *)
Definition scan (d : dict pyfloat Z) (l : list pyfloat) : option pyfloat :=
  match option_map fst
          (find (fun '(k, c) => (1 <? c + occurrences k l)%Z) d) with
  | Some k => Some k
  | None =>
      find (fun v => negb (has_key d v) && (1 <? occurrences v l)%Z) l
  end.

(** [d[x] += 1] adds one to the count of the key equal to [x] ... *)
Definition bump (x : pyfloat) (e : pyfloat * Z) : pyfloat * Z :=
  let '(k, c) := e in if Float.eqb k x then (k, (c + 1)%Z) else (k, c).

(** The three loops of [reverse_engineer_factors], named. *)
Definition collect_samples (base_curve simulated_curve : curve)
    (pivot_tenor : string) (pivot_year base_pivot_rate shift_value : pyfloat)
  : result samples :=
  for_each (keys base_curve) (([], [], [], []) : samples)
    (fun '(short_x, short_y, long_x, long_y) tenor =>
       if String.eqb tenor pivot_tenor then
         Ok (short_x, short_y, long_x, long_y)
       else
         t_year <- getitem tenor_to_years tenor ;;
         let delta_years := (t_year - pivot_year)%float in
         base_rate <- getitem base_curve tenor ;;
         sim_rate <- getitem simulated_curve tenor ;;
         let implied_change :=
           (sim_rate - (base_pivot_rate + shift_value))%float in
         if (t_year <? pivot_year)%float then
           Ok (short_x ++ [[delta_years]], short_y ++ [implied_change],
               long_x, long_y)
         else
           Ok (short_x, short_y,
               long_x ++ [[delta_years]], long_y ++ [implied_change])).

Definition fit_side (x : list (list pyfloat)) (y : list pyfloat)
  : result (option LinearRegression) :=
  match x with
  | _ :: _ => m <- LinearRegression_fit x y ;; Ok (Some m)
  | [] => Ok None
  end.

Definition factor_of (model : option LinearRegression) : pyfloat :=
  match model with
  | Some m => nth 0 (coef_ m) NaN
  | None => Fin 0
  end.

Definition collect_changes (base_curve simulated_curve : curve)
    (pivot_tenor : string)
    (pivot_year base_pivot_rate shift_value
     short_end_factor long_end_factor : pyfloat)
  : result (dict pyfloat pyfloat) :=
  for_each (keys base_curve) ([] : dict pyfloat pyfloat)
    (fun changes tenor =>
       if String.eqb tenor pivot_tenor then Ok changes
       else
         t_year <- getitem tenor_to_years tenor ;;
         let delta_years := (t_year - pivot_year)%float in
         let predicted_change :=
           (shift_value +
            delta_years * (if (t_year <? pivot_year)%float
                           then short_end_factor else long_end_factor))%float in
         sim_rate <- getitem simulated_curve tenor ;;
         let actual_change := (sim_rate - base_pivot_rate)%float in
         Ok (dict_set Float.eqb changes t_year actual_change)).

Definition tally (changes : dict pyfloat pyfloat) (pivot_year : pyfloat)
    (acc : dict pyfloat Z * dict pyfloat Z) : dict pyfloat Z * dict pyfloat Z :=
  fold_left
    (fun '(short_changes, long_changes) '(key, change) =>
       if (key <? pivot_year)%float then
         (incr short_changes (Float.round change 8), long_changes)
       else if (key >? pivot_year)%float then
         (short_changes, incr long_changes (Float.round change 8))
       else (short_changes, long_changes))
    (items changes) acc.

(** The sample a tenor contributes to a regression, and the side it goes
    to in the first loop of [reverse_engineer_factors]. *)
Definition sample_x (pivot t : string) : list pyfloat :=
  [(years t - years pivot)%float].

Definition sample_y (sim : curve) (bp sh : pyfloat) (t : string) : pyfloat :=
  (rate_of sim t - (bp + sh))%float.

Definition on_short (pivot t : string) : bool :=
  negb (String.eqb t pivot) && (years t <? years pivot)%float.

Definition on_long (pivot t : string) : bool :=
  negb (String.eqb t pivot) && negb (years t <? years pivot)%float.

(** The entry the second loop stores for a tenor. *)
Definition change_entry (sim : curve) (bp : pyfloat) (t : string)
  : pyfloat * pyfloat :=
  (years t, (rate_of sim t - bp)%float).

(** * Properties *)

(** ** Floats *)

Module FloatFacts.

Local Open Scope Q_scope.

Lemma Qltb_lt (a b : Q) : Qltb a b = true <-> a < b.
Proof.
  unfold Qltb. rewrite Qlt_alt. destruct (a ?= b); split; congruence.
Qed.

Lemma Qltb_ge (a b : Q) : Qltb a b = false <-> b <= a.
Proof.
  split; intro H.
  - apply Qnot_lt_le. intro L. apply Qltb_lt in L. congruence.
  - destruct (Qltb a b) eqn:E; trivial.
    apply Qltb_lt in E. exfalso. apply (Qlt_not_le _ _ E H).
Qed.

Lemma ltb_irrefl (x : pyfloat) : Float.ltb x x = false.
Proof.
  destruct x; simpl; trivial. apply Qltb_ge. apply Qle_refl.
Qed.

Lemma ltb_asym (x y : pyfloat) :
  Float.ltb x y = true -> Float.ltb y x = false.
Proof.
  destruct x, y; simpl; trivial; try discriminate.
  intro H. apply Qltb_lt in H. apply Qltb_ge. apply Qlt_le_weak, H.
Qed.

Lemma leb_fin (a b : Q) : Float.leb (Fin a) (Fin b) = true <-> a <= b.
Proof.
  unfold Float.leb; simpl. rewrite orb_true_iff, Qltb_lt, Qeq_bool_iff.
  split.
  - intros [H | H]; [apply Qlt_le_weak, H | rewrite H; apply Qle_refl].
  - intro H. apply Qle_lt_or_eq in H. exact H.
Qed.

Lemma leb_fin_red (a b : Q) :
  Float.leb (Fin (Qred a)) (Fin (Qred b)) = true <-> a <= b.
Proof.
  rewrite leb_fin.
  pose proof (Qred_correct a) as Ha. pose proof (Qred_correct b) as Hb.
  split; intro H.
  - rewrite <- Ha, <- Hb. exact H.
  - rewrite Ha, Hb. exact H.
Qed.

Lemma round_half_even_bounds (q : Q) :
  (Qfloor q <= round_half_even q <= Qfloor q + 1)%Z.
Proof.
  unfold round_half_even.
  destruct (q - inject_Z (Qfloor q) ?= 1 # 2); try lia.
  destruct (Z.even (Qfloor q)); lia.
Qed.

Lemma Qcompare_cases (x y : Q) :
  match x ?= y with
  | Lt => x < y
  | Eq => x == y
  | Gt => y < x
  end.
Proof.
  destruct (x ?= y) eqn:E.
  - apply Qeq_alt, E.
  - apply Qlt_alt, E.
  - apply Qgt_alt, E.
Qed.

Lemma round_half_even_mono (a b : Q) :
  a <= b -> (round_half_even a <= round_half_even b)%Z.
Proof.
  intro H.
  pose proof (Qfloor_resp_le _ _ H) as Hf.
  destruct (Z.eq_dec (Qfloor a) (Qfloor b)) as [E | N].
  - unfold round_half_even. rewrite <- E.
    pose proof (Qcompare_cases (a - inject_Z (Qfloor a)) (1 # 2)) as Ca.
    pose proof (Qcompare_cases (b - inject_Z (Qfloor a)) (1 # 2)) as Cb.
    destruct (a - inject_Z (Qfloor a) ?= 1 # 2);
      destruct (b - inject_Z (Qfloor a) ?= 1 # 2);
      try destruct (Z.even (Qfloor a)); try lia; exfalso;
      generalize dependent (inject_Z (Qfloor a)); intros; lra.
  - pose proof (round_half_even_bounds a). pose proof (round_half_even_bounds b).
    lia.
Qed.

Lemma pow10_pos (n : Z) : 0 < (10 # 1) ^ n.
Proof. apply Qpower_0_lt. reflexivity. Qed.

Lemma round_mono (x y : pyfloat) (n : Z) :
  Float.le x y -> Float.le (Float.round x n) (Float.round y n).
Proof.
  unfold Float.le, Float.round.
  destruct x as [a| | |], y as [b| | |]; try discriminate; try reflexivity.
  rewrite leb_fin, leb_fin_red. intro H.
  pose proof (pow10_pos n) as Hp.
  apply Qmult_le_compat_r with (z := / ((10 # 1) ^ n)).
  - rewrite <- Zle_Qle. apply round_half_even_mono.
    apply Qmult_le_compat_r; [exact H | apply Qlt_le_weak, Hp].
  - apply Qlt_le_weak, Qinv_lt_0_compat, Hp.
Qed.

Lemma add_mono_r (x y z : pyfloat) :
  is_finite x = true -> is_nan y = false -> is_nan z = false ->
  Float.le y z -> Float.le (x + y)%float (x + z)%float.
Proof.
  unfold Float.le. destruct x as [a| | |]; try discriminate. intros _.
  unfold Float.add.
  destruct y as [b| | |], z as [c| | |]; try discriminate; try reflexivity.
  intros _ _. rewrite leb_fin, leb_fin_red. intro H. lra.
Qed.

Lemma max_mono_r (x c1 c2 : pyfloat) :
  is_nan x = false -> Float.le c1 c2 ->
  Float.le (Float.max x c1) (Float.max x c2).
Proof.
  unfold Float.le, Float.max, Float.gtb.
  destruct x as [a| | |]; try discriminate; intros _;
    destruct c1 as [b| | |], c2 as [c| | |]; simpl; try discriminate; trivial;
    repeat match goal with
           | |- context [Qltb ?u ?v] =>
               let E := fresh "E" in
               destruct (Qltb u v) eqn:E;
               [apply Qltb_lt in E | apply Qltb_ge in E]
           end;
    rewrite ?leb_fin; try reflexivity; try discriminate; intros; try lra.
Qed.

End FloatFacts.

(** ** Dictionaries with string keys *)

Section DictFacts.

Context {V : Type}.
Implicit Types (d : dict string V) (k : string) (v : V).

Lemma dict_get_in d k v :
  dict_get String.eqb d k = Some v -> In (k, v) d.
Proof.
  induction d as [| [k' v'] d IH]; simpl; [discriminate |].
  destruct (String.eqb k' k) eqn:E.
  - apply String.eqb_eq in E. intros [= ->]. left. congruence.
  - intro H. right. apply IH, H.
Qed.

Lemma dict_get_some d k :
  In k (keys d) -> exists v, dict_get String.eqb d k = Some v.
Proof.
  induction d as [| [k' v'] d IH]; simpl; [contradiction |].
  intros [-> | H].
  - rewrite String.eqb_refl. eauto.
  - destruct (String.eqb k' k); eauto.
Qed.

Lemma dict_get_none d k :
  ~ In k (keys d) -> dict_get String.eqb d k = None.
Proof.
  induction d as [| [k' v'] d IH]; simpl; [reflexivity |].
  intro H. destruct (String.eqb k' k) eqn:E.
  - apply String.eqb_eq in E. tauto.
  - apply IH. tauto.
Qed.

Lemma dict_get_keys d k v :
  dict_get String.eqb d k = Some v -> In k (keys d).
Proof.
  intro H. apply dict_get_in in H. apply (in_map fst) in H. exact H.
Qed.

Lemma dict_set_fresh d k v :
  ~ In k (keys d) -> dict_set String.eqb d k v = d ++ [(k, v)].
Proof.
  induction d as [| [k' v'] d IH]; simpl; [reflexivity |].
  intro H. destruct (String.eqb k' k) eqn:E.
  - apply String.eqb_eq in E. tauto.
  - f_equal. apply IH. tauto.
Qed.

Lemma getitem_ok d k v :
  getitem d k = Ok v <-> dict_get String.eqb d k = Some v.
Proof.
  unfold getitem. destruct (dict_get String.eqb d k); split; congruence.
Qed.

Lemma getitem_raise d k e :
  getitem d k = Raise e <-> ~ In k (keys d) /\ e = KeyError k.
Proof.
  unfold getitem. destruct (dict_get String.eqb d k) eqn:E; split.
  - discriminate.
  - intros [H _]. apply dict_get_keys in E. tauto.
  - intros [= <-]. split; [| reflexivity].
    intro H. apply dict_get_some in H. destruct H; congruence.
  - intros [_ ->]. reflexivity.
Qed.

End DictFacts.

Lemma dict_get_map_values {V W : Type} (h : string -> V -> W)
    (d : dict string V) (k : string) :
  dict_get String.eqb (map (fun '(k', v) => (k', h k' v)) d) k =
  option_map (h k) (dict_get String.eqb d k).
Proof.
  induction d as [| [k' v'] d IH]; simpl; [reflexivity |].
  destruct (String.eqb k' k) eqn:E; [| exact IH].
  apply String.eqb_eq in E. now subst.
Qed.

Lemma keys_map_values {V W : Type} (h : string -> V -> W) (d : dict string V) :
  keys (map (fun '(k', v) => (k', h k' v)) d) = keys d.
Proof.
  unfold keys. rewrite map_map. apply map_ext. now intros [].
Qed.

(** ** The tenor grid *)

Lemma getitem_years (tenor : string) :
  In tenor grid -> getitem tenor_to_years tenor = Ok (years tenor).
Proof.
  intro H. unfold years, getitem.
  destruct (dict_get_some tenor_to_years tenor H) as [y ->]. reflexivity.
Qed.

Lemma in_grid_cases (P : string -> Prop) :
  P "3M" -> P "6M" -> P "1Y" -> P "2Y" -> P "3Y" -> P "4Y" -> P "5Y" ->
  P "7Y" -> forall t, In t grid -> P t.
Proof.
  intros. unfold grid in *. simpl in *.
  repeat match goal with
         | H : _ \/ _ |- _ => destruct H as [<- | H]
         end; try assumption; contradiction.
Qed.

Lemma mem_in (k : string) (l : list string) : mem k l = true <-> In k l.
Proof.
  unfold mem. rewrite existsb_exists. split.
  - intros [x [H E]]. apply String.eqb_eq in E. now subst.
  - intro H. exists k. split; [exact H | apply String.eqb_refl].
Qed.

Lemma nodupb_nodup (l : list string) : nodupb l = true -> NoDup l.
Proof.
  induction l as [| k l IH]; simpl; [constructor |].
  rewrite andb_true_iff, negb_true_iff. intros [H1 H2].
  constructor; [| apply IH, H2].
  intro H. apply mem_in in H. congruence.
Qed.

Lemma total_over_gridb_ok (c : curve) :
  total_over_gridb c = true -> total_over_grid c.
Proof.
  unfold total_over_gridb. rewrite !andb_true_iff, !forallb_forall.
  intros [[N H1] H2]. split; [apply nodupb_nodup, N |].
  intro k. split; intro H.
  - apply mem_in, H1, H.
  - apply mem_in, H2, H.
Qed.

Lemma finite_ratesb_ok (c : curve) :
  finite_ratesb c = true -> finite_rates c.
Proof.
  unfold finite_ratesb. rewrite forallb_forall. intros H k v Hin.
  apply (H (k, v) Hin).
Qed.

(** ** Simulation *)

Section SimulateLoop.

Variables (pivot : string) (pivot_rate s fs fl cs cl : pyfloat).

Let body : curve -> string * pyfloat -> result curve :=
  fun simulated_curve '(tenor, original_rate) =>
    t_year <- getitem tenor_to_years tenor ;;
    let delta_years := (t_year - years pivot)%float in
    let new_rate :=
      if String.eqb tenor pivot then (pivot_rate + s)%float
      else if (t_year <? years pivot)%float then
        let raw_change := (s + delta_years * fs)%float in
        let capped_change := Float.max raw_change cs in
        (original_rate + capped_change)%float
      else
        let raw_change := (s + delta_years * fl)%float in
        let capped_change := Float.min raw_change cl in
        (original_rate + capped_change)%float in
    Ok (dict_set String.eqb simulated_curve tenor (Float.round new_rate 6)).

Let stored : string * pyfloat -> string * pyfloat :=
  fun '(k, v) => (k, simulated_rate pivot pivot_rate s fs fl cs cl k v).

Lemma simulate_loop_ok (l acc : curve) :
  NoDup (keys l) ->
  (forall k, In k (keys l) -> ~ In k (keys acc)) ->
  (forall k, In k (keys l) -> In k grid) ->
  for_each (items l) acc body = Ok (acc ++ map stored l).
Proof.
  revert acc. induction l as [| [k v] l IH]; intros acc N D G.
  - simpl. now rewrite app_nil_r.
  - inversion N as [| ? ? Hk N']; subst.
    unfold items in *. cbn [for_each body].
    rewrite (getitem_years k) by (apply G; now left).
    cbn [bind]. rewrite dict_set_fresh by (apply D; now left).
    rewrite IH; trivial.
    + rewrite <- app_assoc. reflexivity.
    + intros k' Hin. unfold keys. rewrite map_app, in_app_iff. simpl.
      intros [H | [H | []]].
      * apply (D k'); [now right | exact H].
      * subst. apply Hk, Hin.
    + intros k' Hin. apply G. now right.
Qed.

(** The loop raises exactly when it meets a key outside the grid. *)
Lemma simulate_loop_raise (l acc : curve) (e : exn) :
  for_each (items l) acc body = Raise e ->
  exists k, In k (keys l) /\ ~ In k grid /\ e = KeyError k.
Proof.
  revert acc. induction l as [| [k v] l IH]; intros acc; [discriminate |].
  unfold items in *. cbn [for_each body].
  destruct (getitem tenor_to_years k) as [y |e'] eqn:E; cbn [bind].
  - intro H. destruct (IH _ H) as [k' [H1 H2]].
    exists k'. split; [now right | exact H2].
  - intros [= <-]. apply getitem_raise in E. destruct E as [E ->].
    exists k. split; [now left | now split].
Qed.

End SimulateLoop.

Lemma simulate_unfold (base : curve) (pivot : string) (s fs fl cs cl : pyfloat) :
  NoDup (keys base) -> (forall k, In k (keys base) -> In k grid) ->
  In pivot (keys base) ->
  exists pivot_rate,
    getitem base pivot = Ok pivot_rate /\
    simulate_yield_curve base pivot s fs fl cs cl =
    Ok (map (fun '(k, v) =>
               (k, simulated_rate pivot pivot_rate s fs fl cs cl k v)) base).
Proof.
  intros N T P.
  destruct (dict_get_some base pivot P) as [pr Hpr].
  exists pr. split; [now apply getitem_ok |].
  unfold simulate_yield_curve.
  rewrite (getitem_years pivot (T pivot P)). cbn [bind].
  apply getitem_ok in Hpr. rewrite Hpr. cbn [bind].
  apply (simulate_loop_ok pivot pr s fs fl cs cl base []).
  - exact N.
  - intros k _ [].
  - exact T.
Qed.

Lemma years_finite (t : string) : In t grid -> exists q, years t = Fin q.
Proof.
  revert t. apply in_grid_cases; eexists; reflexivity.
Qed.

Lemma simulate_lookup_partial (base : curve) (pivot : string)
    (s fs fl cs cl : pyfloat) :
  NoDup (keys base) -> (forall k, In k (keys base) -> In k grid) ->
  In pivot (keys base) ->
  exists simulated pivot_rate,
    simulate_yield_curve base pivot s fs fl cs cl = Ok simulated /\
    getitem base pivot = Ok pivot_rate /\
    keys simulated = keys base /\
    forall t rate,
      getitem base t = Ok rate ->
      getitem simulated t =
      Ok (simulated_rate pivot pivot_rate s fs fl cs cl t rate).
Proof.
  intros N T P.
  destruct (simulate_unfold base pivot s fs fl cs cl N T P) as [pr [Hpr Hsim]].
  eexists. exists pr. split; [exact Hsim |]. split; [exact Hpr |].
  split; [apply keys_map_values |].
  intros t rate Ht. apply getitem_ok in Ht. apply getitem_ok.
  rewrite (dict_get_map_values
             (simulated_rate pivot pr s fs fl cs cl) base t), Ht.
  reflexivity.
Qed.

Lemma simulate_lookup (base : curve) (pivot : string) (s fs fl cs cl : pyfloat) :
  total_over_grid base -> In pivot grid ->
  exists simulated pivot_rate,
    simulate_yield_curve base pivot s fs fl cs cl = Ok simulated /\
    getitem base pivot = Ok pivot_rate /\
    keys simulated = keys base /\
    forall t rate,
      getitem base t = Ok rate ->
      getitem simulated t =
      Ok (simulated_rate pivot pivot_rate s fs fl cs cl t rate).
Proof.
  intros [N T] P. apply simulate_lookup_partial.
  - exact N.
  - intros k H. apply T, H.
  - apply T, P.
Qed.

Lemma simulated_rate_pivot (pivot : string) (pr s fs fl cs cl rate : pyfloat) :
  simulated_rate pivot pr s fs fl cs cl pivot rate =
  Float.round (pr + s) 6.
Proof.
  unfold simulated_rate. now rewrite String.eqb_refl.
Qed.

Lemma simulated_rate_short (pivot t : string) (pr s fs fl cs cl rate : pyfloat) :
  (years t <? years pivot)%float = true ->
  simulated_rate pivot pr s fs fl cs cl t rate =
  Float.round
    (rate + Float.max (s + (years t - years pivot) * fs) cs) 6.
Proof.
  intro H. unfold simulated_rate.
  destruct (String.eqb t pivot) eqn:E.
  - apply String.eqb_eq in E. subst.
    rewrite FloatFacts.ltb_irrefl in H. discriminate.
  - now rewrite H.
Qed.

Lemma simulated_rate_long (pivot t : string) (pr s fs fl cs cl rate : pyfloat) :
  (years t >? years pivot)%float = true ->
  simulated_rate pivot pr s fs fl cs cl t rate =
  Float.round
    (rate + Float.min (s + (years t - years pivot) * fl) cl) 6.
Proof.
  unfold Float.gtb. intro H. unfold simulated_rate.
  destruct (String.eqb t pivot) eqn:E.
  - apply String.eqb_eq in E. subst.
    rewrite FloatFacts.ltb_irrefl in H. discriminate.
  - now rewrite (FloatFacts.ltb_asym _ _ H).
Qed.

(** C1. On a base curve that is total over the grid and a pivot of the
    grid, [simulate_yield_curve] returns a curve whose rate is
    [round(base[pivot] + shift, 6)] at the pivot,
    [round(base[t] + max(shift + (ty - py) * short_factor, short_cap), 6)]
    at every tenor with [ty < py], and
    [round(base[t] + min(shift + (ty - py) * long_factor, long_cap), 6)]
    at every tenor with [ty > py]. *)
Theorem simulate_rates (base : curve) (pivot : string)
    (s fs fl cs cl : pyfloat) :
  total_over_grid base -> In pivot grid ->
  exists simulated pivot_rate,
    simulate_yield_curve base pivot s fs fl cs cl = Ok simulated /\
    getitem base pivot = Ok pivot_rate /\
    getitem simulated pivot = Ok (Float.round (pivot_rate + s) 6) /\
    forall t rate,
      getitem base t = Ok rate ->
      let ty := years t in
      let py := years pivot in
      ((ty <? py)%float = true ->
       getitem simulated t =
       Ok (Float.round (rate + Float.max (s + (ty - py) * fs) cs) 6)) /\
      ((ty >? py)%float = true ->
       getitem simulated t =
       Ok (Float.round (rate + Float.min (s + (ty - py) * fl) cl) 6)).
Proof.
  intros T P.
  destruct (simulate_lookup base pivot s fs fl cs cl T P)
    as [sim [pr [Hsim [Hpr [_ Hget]]]]].
  exists sim, pr. split; [exact Hsim |]. split; [exact Hpr |]. split.
  - rewrite (Hget pivot pr Hpr). now rewrite simulated_rate_pivot.
  - intros t rate Ht ty py. rewrite (Hget t rate Ht). subst ty py. split.
    + intro H. now rewrite simulated_rate_short.
    + intro H. now rewrite simulated_rate_long.
Qed.

(** C6. Pivot exactness: for every parameter choice the simulated rate at
    the pivot is [round(base[pivot] + shift, 6)]; the caps do not enter it,
    so any other pair of caps gives the same pivot rate. *)
Theorem pivot_exactness (base : curve) (pivot : string)
    (s fs fl cs cl : pyfloat) :
  total_over_grid base -> In pivot grid ->
  exists simulated pivot_rate,
    simulate_yield_curve base pivot s fs fl cs cl = Ok simulated /\
    getitem base pivot = Ok pivot_rate /\
    getitem simulated pivot = Ok (Float.round (pivot_rate + s) 6) /\
    forall cs' cl', exists simulated',
      simulate_yield_curve base pivot s fs fl cs' cl' = Ok simulated' /\
      getitem simulated' pivot = getitem simulated pivot.
Proof.
  intros T P.
  destruct (simulate_lookup base pivot s fs fl cs cl T P)
    as [sim [pr [Hsim [Hpr [_ Hget]]]]].
  exists sim, pr. split; [exact Hsim |]. split; [exact Hpr |]. split.
  - rewrite (Hget pivot pr Hpr). now rewrite simulated_rate_pivot.
  - intros cs' cl'.
    destruct (simulate_lookup base pivot s fs fl cs' cl' T P)
      as [sim' [pr' [Hsim' [Hpr' [_ Hget']]]]].
    exists sim'. split; [exact Hsim' |].
    rewrite (Hget pivot pr Hpr), (Hget' pivot pr' Hpr'), !simulated_rate_pivot.
    congruence.
Qed.

(** C7. Cap monotonicity on the short end: with finite base rates, shift
    and short-end factor, and the other parameters fixed, a smaller
    short-end cap never gives a larger simulated rate at a tenor whose
    year fraction is below the pivot's. *)
Theorem short_cap_monotone (base : curve) (pivot : string)
    (s fs fl cl cs1 cs2 : pyfloat) :
  total_over_grid base -> finite_rates base -> In pivot grid ->
  is_finite s = true -> is_finite fs = true ->
  Float.le cs1 cs2 ->
  exists sim1 sim2,
    simulate_yield_curve base pivot s fs fl cs1 cl = Ok sim1 /\
    simulate_yield_curve base pivot s fs fl cs2 cl = Ok sim2 /\
    forall t,
      In t grid -> (years t <? years pivot)%float = true ->
      exists r1 r2,
        getitem sim1 t = Ok r1 /\ getitem sim2 t = Ok r2 /\ Float.le r1 r2.
Proof.
  intros T F P Fs Ffs Hc.
  destruct (simulate_lookup base pivot s fs fl cs1 cl T P)
    as [sim1 [pr1 [Hsim1 [_ [_ Hget1]]]]].
  destruct (simulate_lookup base pivot s fs fl cs2 cl T P)
    as [sim2 [pr2 [Hsim2 [_ [_ Hget2]]]]].
  exists sim1, sim2. split; [exact Hsim1 |]. split; [exact Hsim2 |].
  intros t Gt Hlt.
  destruct (dict_get_some base t (proj2 (proj2 T t) Gt)) as [rate Hrate].
  pose proof (F t rate (dict_get_in _ _ _ Hrate)) as Frate.
  apply getitem_ok in Hrate.
  do 2 eexists. split; [apply (Hget1 t rate Hrate) |].
  split; [apply (Hget2 t rate Hrate) |].
  rewrite !simulated_rate_short by assumption.
  destruct (years_finite t Gt) as [qt ->].
  destruct (years_finite pivot P) as [qp ->].
  destruct s as [qs| | |]; try discriminate.
  destruct fs as [qf| | |]; try discriminate.
  apply FloatFacts.round_mono.
  assert (Hn1 : is_nan cs1 = false) by (destruct cs1, cs2; trivial; discriminate).
  assert (Hn2 : is_nan cs2 = false) by (destruct cs1, cs2; trivial; discriminate).
  apply FloatFacts.add_mono_r; trivial.
  - unfold Float.max. cbn [Float.sub Float.mul Float.add].
    destruct (_ >? _)%float; trivial.
  - unfold Float.max. cbn [Float.sub Float.mul Float.add].
    destruct (_ >? _)%float; trivial.
  - apply FloatFacts.max_mono_r; trivial.
Qed.

Lemma simulate_rates_witness :
  total_over_grid default_base_curve /\ In "2Y" grid /\
  exists simulated pivot_rate,
    simulate_yield_curve default_base_curve "2Y" (Fin (1 # 1000))
      (Fin (2 # 1000)) (Fin (3 # 1000)) (Fin 0) (Fin (15 # 10000))
    = Ok simulated /\
    getitem default_base_curve "2Y" = Ok pivot_rate /\
    getitem simulated "2Y" = Ok (Float.round (pivot_rate + Fin (1 # 1000)) 6) /\
    forall t rate,
      getitem default_base_curve t = Ok rate ->
      let ty := years t in
      let py := years "2Y" in
      ((ty <? py)%float = true ->
       getitem simulated t =
       Ok (Float.round
             (rate + Float.max (Fin (1 # 1000) + (ty - py) * Fin (2 # 1000))
                       (Fin 0)) 6)) /\
      ((ty >? py)%float = true ->
       getitem simulated t =
       Ok (Float.round
             (rate + Float.min (Fin (1 # 1000) + (ty - py) * Fin (3 # 1000))
                       (Fin (15 # 10000))) 6)).
Proof.
  assert (T : total_over_grid default_base_curve)
    by (apply total_over_gridb_ok; reflexivity).
  assert (P : In "2Y" grid) by (simpl; tauto).
  split; [exact T |]. split; [exact P |].
  exact (simulate_rates default_base_curve "2Y" (Fin (1 # 1000))
           (Fin (2 # 1000)) (Fin (3 # 1000)) (Fin 0) (Fin (15 # 10000)) T P).
Defined.

Lemma pivot_exactness_witness :
  total_over_grid default_base_curve /\ In "2Y" grid /\
  exists simulated pivot_rate,
    simulate_yield_curve default_base_curve "2Y" (Fin (1 # 1000))
      (Fin (2 # 1000)) (Fin (3 # 1000)) (Fin 0) (Fin (15 # 10000))
    = Ok simulated /\
    getitem default_base_curve "2Y" = Ok pivot_rate /\
    getitem simulated "2Y" = Ok (Float.round (pivot_rate + Fin (1 # 1000)) 6) /\
    forall cs' cl', exists simulated',
      simulate_yield_curve default_base_curve "2Y" (Fin (1 # 1000))
        (Fin (2 # 1000)) (Fin (3 # 1000)) cs' cl' = Ok simulated' /\
      getitem simulated' "2Y" = getitem simulated "2Y".
Proof.
  assert (T : total_over_grid default_base_curve)
    by (apply total_over_gridb_ok; reflexivity).
  assert (P : In "2Y" grid) by (simpl; tauto).
  split; [exact T |]. split; [exact P |].
  exact (pivot_exactness default_base_curve "2Y" (Fin (1 # 1000))
           (Fin (2 # 1000)) (Fin (3 # 1000)) (Fin 0) (Fin (15 # 10000)) T P).
Defined.

Lemma short_cap_monotone_witness :
  total_over_grid default_base_curve /\ finite_rates default_base_curve /\
  In "2Y" grid /\ is_finite (Fin (1 # 1000)) = true /\
  is_finite (Fin (2 # 1000)) = true /\ Float.le NInf (Fin 0) /\
  exists sim1 sim2,
    simulate_yield_curve default_base_curve "2Y" (Fin (1 # 1000))
      (Fin (2 # 1000)) (Fin (3 # 1000)) NInf (Fin (15 # 10000)) = Ok sim1 /\
    simulate_yield_curve default_base_curve "2Y" (Fin (1 # 1000))
      (Fin (2 # 1000)) (Fin (3 # 1000)) (Fin 0) (Fin (15 # 10000)) = Ok sim2 /\
    forall t,
      In t grid -> (years t <? years "2Y")%float = true ->
      exists r1 r2,
        getitem sim1 t = Ok r1 /\ getitem sim2 t = Ok r2 /\ Float.le r1 r2.
Proof.
  assert (T : total_over_grid default_base_curve)
    by (apply total_over_gridb_ok; reflexivity).
  assert (F : finite_rates default_base_curve)
    by (apply finite_ratesb_ok; reflexivity).
  assert (P : In "2Y" grid) by (simpl; tauto).
  repeat (split; [first [exact T | exact F | exact P | reflexivity] |]).
  exact (short_cap_monotone default_base_curve "2Y" (Fin (1 # 1000))
           (Fin (2 # 1000)) (Fin (3 # 1000)) (Fin (15 # 10000)) NInf (Fin 0)
           T F P eq_refl eq_refl eq_refl).
Defined.

(** ** Cap detection *)

Module CountFacts.

Lemma eqb_sym (x y : pyfloat) : Float.eqb x y = Float.eqb y x.
Proof.
  destruct x as [a| | |], y as [b| | |]; simpl; trivial.
  destruct (Qeq_bool a b) eqn:E1, (Qeq_bool b a) eqn:E2; trivial.
  - apply Qeq_bool_iff in E1. symmetry in E1. apply Qeq_bool_iff in E1.
    congruence.
  - apply Qeq_bool_iff in E2. symmetry in E2. apply Qeq_bool_iff in E2.
    congruence.
Qed.

Lemma eqb_trans (x y z : pyfloat) :
  Float.eqb x y = true -> Float.eqb y z = true -> Float.eqb x z = true.
Proof.
  destruct x as [a| | |], y as [b| | |], z as [c| | |]; simpl; trivial;
    try discriminate.
  rewrite !Qeq_bool_iff. intros H1 H2. now rewrite H1.
Qed.

(** Equal values have equal tests against a third. *)
Lemma eqb_compat (x y z : pyfloat) :
  Float.eqb x y = true -> Float.eqb x z = Float.eqb y z.
Proof.
  intro H. destruct (Float.eqb y z) eqn:E.
  - apply (eqb_trans x y z); assumption.
  - destruct (Float.eqb x z) eqn:E'; trivial.
    rewrite eqb_sym in H. rewrite (eqb_trans y x z H E') in E. discriminate.
Qed.

Lemma occurrences_cons (v x : pyfloat) (l : list pyfloat) :
  occurrences v (x :: l) =
  ((if Float.eqb v x then 1 else 0) + occurrences v l)%Z.
Proof.
  unfold occurrences. cbn [filter].
  destruct (Float.eqb v x); cbn [List.length]; lia.
Qed.

Lemma occurrences_nonneg (v : pyfloat) (l : list pyfloat) :
  (0 <= occurrences v l)%Z.
Proof. unfold occurrences. lia. Qed.

Lemma occurrences_zero (v : pyfloat) (l : list pyfloat) :
  occurrences v l = 0%Z <-> forall x, In x l -> Float.eqb v x = false.
Proof.
  induction l as [| y l IH].
  - split; [intros _ x [] | reflexivity].
  - rewrite occurrences_cons. pose proof (occurrences_nonneg v l).
    split.
    + destruct (Float.eqb v y) eqn:E; intros H0 x [<- | Hx];
        try lia; trivial.
      apply IH; [lia | exact Hx].
    + intro Hall. rewrite (Hall y) by now left.
      simpl. apply IH. intros x Hx. apply Hall. now right.
Qed.

Lemma dict_get_has_key (d : dict pyfloat Z) (x : pyfloat) :
  has_key d x = false -> dict_get Float.eqb d x = None.
Proof.
  unfold has_key. induction d as [| [k c] d IH]; simpl; [reflexivity |].
  rewrite orb_false_iff. intros [H1 H2]. rewrite H1. apply IH, H2.
Qed.

Lemma dict_set_has_key (d : dict pyfloat Z) (x : pyfloat) (c : Z) :
  has_key d x = false -> dict_set Float.eqb d x c = d ++ [(x, c)].
Proof.
  unfold has_key. induction d as [| [k c'] d IH]; simpl; [reflexivity |].
  rewrite orb_false_iff. intros [H1 H2]. rewrite H1. f_equal. apply IH, H2.
Qed.

Lemma has_key_compat (d : dict pyfloat Z) (x y : pyfloat) :
  Float.eqb x y = true -> has_key d x = has_key d y.
Proof.
  intro H. unfold has_key. induction (keys d) as [| k l IH]; simpl; trivial.
  rewrite IH. f_equal. rewrite (eqb_sym k x), (eqb_sym k y).
  apply eqb_compat, H.
Qed.

Lemma has_key_false (d : dict pyfloat Z) (x : pyfloat) :
  has_key d x = false <-> forall k c, In (k, c) d -> Float.eqb k x = false.
Proof.
  unfold has_key. induction d as [| [k c] d IH]; simpl.
  - split; [intros _ k c [] | reflexivity].
  - rewrite orb_false_iff, IH. split.
    + intros [H1 H2] k' c' [[= <- <-] | H]; [exact H1 | apply (H2 _ _ H)].
    + intro H. split; [apply (H k c); now left |].
      intros k' c' H'. apply (H k' c'). now right.
Qed.

Lemma eqb_irrefl_never (x y : pyfloat) :
  Float.eqb x x = false -> Float.eqb x y = false.
Proof.
  destruct x as [a| | |]; simpl; try discriminate; [| reflexivity].
  intro H. assert (E : Qeq_bool a a = true) by (apply Qeq_bool_iff; reflexivity).
  congruence.
Qed.

Lemma find_ext_in {A : Type} (p q : A -> bool) (l : list A) :
  (forall a, In a l -> p a = q a) -> find p l = find q l.
Proof.
  induction l as [| a l IH]; simpl; intro H; [reflexivity |].
  rewrite (H a) by now left. destruct (q a); trivial.
  apply IH. intros b Hb. apply H. now right.
Qed.

Lemma find_app {A : Type} (p : A -> bool) (l1 l2 : list A) :
  find p (l1 ++ l2) =
  match find p l1 with Some a => Some a | None => find p l2 end.
Proof.
  induction l1 as [| a l1 IH]; simpl; [reflexivity |].
  destruct (p a); [reflexivity | exact IH].
Qed.

Lemma find_map_fst (p : pyfloat * Z -> bool) (f : pyfloat * Z -> pyfloat * Z)
    (d : dict pyfloat Z) :
  (forall e, fst (f e) = fst e) ->
  option_map fst (find p (map f d)) =
  option_map fst (find (fun e => p (f e)) d).
Proof.
  intro Hf. induction d as [| e d IH]; simpl; [reflexivity |].
  destruct (p (f e)); [simpl; f_equal; apply Hf | exact IH].
Qed.

Lemma bump_absent (d : dict pyfloat Z) (x : pyfloat) :
  has_key d x = false -> map (bump x) d = d.
Proof.
  rewrite has_key_false. induction d as [| [k c] d IH]; intro H; simpl;
    [reflexivity |].
  rewrite (H k c) by now left. f_equal. apply IH.
  intros k' c' H'. apply (H k' c'). now right.
Qed.

Lemma incr_present (d : dict pyfloat Z) (x : pyfloat) :
  distinct (keys d) -> has_key d x = true -> incr d x = map (bump x) d.
Proof.
  unfold incr, has_key.
  induction d as [| [k c] d IH]; simpl; [discriminate |].
  intros [Hk Hd] H. destruct (Float.eqb k x) eqn:E.
  - simpl. f_equal. symmetry. apply bump_absent.
    unfold has_key. rewrite <- Hk. apply eq_true_iff_eq.
    rewrite !existsb_exists.
    split; intros [k' [Hin Ek]]; exists k'; (split; [exact Hin |]).
    + apply (eqb_trans k' x k); [exact Ek | now rewrite eqb_sym].
    + apply (eqb_trans k' k x); assumption.
  - simpl in H. specialize (IH Hd H).
    destruct (dict_get Float.eqb d x); simpl; f_equal; exact IH.
Qed.

(** ... and appends [x] with count one when no key is equal to it. *)
Lemma incr_absent (d : dict pyfloat Z) (x : pyfloat) :
  has_key d x = false -> incr d x = d ++ [(x, 1%Z)].
Proof.
  intro H. unfold incr. rewrite (dict_get_has_key d x H).
  apply dict_set_has_key, H.
Qed.

Lemma keys_bump (d : dict pyfloat Z) (x : pyfloat) :
  keys (map (bump x) d) = keys d.
Proof.
  unfold keys. rewrite map_map. apply map_ext. intros [k c]. simpl.
  now destruct (Float.eqb k x).
Qed.

Lemma distinct_snoc (ks : list pyfloat) (x : pyfloat) :
  distinct ks -> existsb (fun k => Float.eqb k x) ks = false ->
  distinct (ks ++ [x]).
Proof.
  induction ks as [| k ks IH]; simpl; [tauto |].
  rewrite orb_false_iff. intros [Hk Hd] [E H]. split; [| apply IH; assumption].
  rewrite existsb_app, Hk. simpl. rewrite eqb_sym, E. reflexivity.
Qed.

Lemma distinct_incr (d : dict pyfloat Z) (x : pyfloat) :
  distinct (keys d) -> distinct (keys (incr d x)).
Proof.
  intro H. destruct (has_key d x) eqn:E.
  - rewrite incr_present, keys_bump; assumption.
  - rewrite incr_absent by assumption. unfold keys. rewrite map_app.
    apply distinct_snoc; assumption.
Qed.

Lemma has_key_snoc (d : dict pyfloat Z) (x v : pyfloat) (c : Z) :
  has_key (d ++ [(x, c)]) v = has_key d v || Float.eqb x v.
Proof.
  unfold has_key, keys. rewrite map_app, existsb_app. simpl.
  now rewrite orb_false_r.
Qed.

Lemma scan_present (d : dict pyfloat Z) (x : pyfloat) (l : list pyfloat) :
  has_key d x = true -> scan (map (bump x) d) l = scan d (x :: l).
Proof.
  intro H. unfold scan.
  rewrite find_map_fst by (intros [k c]; simpl; now destruct (Float.eqb k x)).
  rewrite (find_ext_in
             (fun e => let '(k, c) := bump x e in (1 <? c + occurrences k l)%Z)
             (fun '(k, c) => (1 <? c + occurrences k (x :: l))%Z) d).
  2:{ intros [k c] _. simpl. rewrite occurrences_cons.
      destruct (Float.eqb k x); f_equal; lia. }
  destruct (option_map fst _); [reflexivity |].
  simpl. rewrite H. simpl. apply find_ext_in. intros v _.
  unfold has_key. rewrite keys_bump. fold (has_key d v).
  destruct (has_key d v) eqn:Ev; simpl; [reflexivity |].
  rewrite occurrences_cons.
  destruct (Float.eqb v x) eqn:E; [| reflexivity].
  rewrite (has_key_compat d v x E) in Ev. congruence.
Qed.

Lemma scan_absent (d : dict pyfloat Z) (x : pyfloat) (l : list pyfloat) :
  has_key d x = false -> scan (d ++ [(x, 1%Z)]) l = scan d (x :: l).
Proof.
  intro H. unfold scan. rewrite find_app.
  rewrite (find_ext_in
             (fun '(k, c) => (1 <? c + occurrences k l)%Z)
             (fun '(k, c) => (1 <? c + occurrences k (x :: l))%Z) d).
  2:{ intros [k c] Hin. rewrite occurrences_cons.
      rewrite (proj1 (has_key_false d x) H k c Hin). reflexivity. }
  destruct (find _ d) as [[k c] |]; [reflexivity |].
  cbn [find option_map]. rewrite H. cbn [negb andb].
  rewrite occurrences_cons.
  destruct (Float.eqb x x) eqn:Ex.
  - destruct (1 <? 1 + occurrences x l)%Z eqn:E1; [reflexivity |].
    cbn [option_map]. apply find_ext_in. intros v Hv.
    assert (Exv : Float.eqb x v = false).
    { destruct (Float.eqb x v) eqn:Exv; trivial.
      assert (Hz : occurrences x l <> 0%Z).
      { rewrite occurrences_zero. intro Hall. rewrite (Hall v Hv) in Exv.
        discriminate. }
      pose proof (occurrences_nonneg x l). apply Z.ltb_ge in E1. lia. }
    rewrite has_key_snoc, Exv, orb_false_r, occurrences_cons.
    rewrite (eqb_sym v x), Exv. reflexivity.
  - assert (Hz : occurrences x l = 0%Z).
    { apply occurrences_zero. intros y _. apply eqb_irrefl_never, Ex. }
    rewrite Hz. cbn [Z.add Z.ltb Z.compare Pos.compare Pos.compare_cont option_map].
    apply find_ext_in. intros v Hv.
    rewrite has_key_snoc, (eqb_irrefl_never x v Ex), orb_false_r.
    rewrite occurrences_cons, (eqb_sym v x), (eqb_irrefl_never x v Ex).
    reflexivity.
Qed.

Lemma scan_incr (d : dict pyfloat Z) (x : pyfloat) (l : list pyfloat) :
  distinct (keys d) -> scan (incr d x) l = scan d (x :: l).
Proof.
  intro H. destruct (has_key d x) eqn:E.
  - rewrite incr_present by assumption. apply scan_present, E.
  - rewrite incr_absent by assumption. apply scan_absent, E.
Qed.

Lemma scan_count_all (l : list pyfloat) (d : dict pyfloat Z) :
  distinct (keys d) ->
  option_map fst (find (fun '(_, count) => (1 <? count)%Z) (count_all l d)) =
  scan d l.
Proof.
  revert d. induction l as [| x l IH]; intros d H.
  - unfold scan, count_all. simpl.
    rewrite (find_ext_in
               (fun '(k, c) => (1 <? c + occurrences k [])%Z)
               (fun '(_, count) => (1 <? count)%Z) d).
    + now destruct (option_map fst _).
    + intros [k c] _. unfold occurrences. simpl. f_equal. lia.
  - unfold count_all. simpl. fold (count_all l (incr d x)).
    rewrite IH by (apply distinct_incr, H). apply scan_incr, H.
Qed.

(** The scan of the counting dictionary finds the first repeated value. *)
Lemma next_repeated_count_all (l : list pyfloat) (default : pyfloat) :
  next_repeated (count_all l []) default = first_repeated l default.
Proof.
  unfold next_repeated, first_repeated, items.
  pose proof (scan_count_all l [] I) as H. unfold scan in H. simpl in H.
  destruct (find _ (count_all l [])) as [[v c] |]; simpl in H;
    rewrite <- H; reflexivity.
Qed.

End CountFacts.

(** ** Reverse engineering *)

Lemma reverse_engineer_factors_eq (base_curve simulated_curve : curve)
    (pivot : string) :
  reverse_engineer_factors base_curve simulated_curve pivot =
  (pivot_year <- getitem tenor_to_years pivot ;;
   base_pivot_rate <- getitem base_curve pivot ;;
   sim_pivot_rate <- getitem simulated_curve pivot ;;
   let shift := (sim_pivot_rate - base_pivot_rate)%float in
   xy <- collect_samples base_curve simulated_curve pivot pivot_year
           base_pivot_rate shift ;;
   let '(short_x, short_y, long_x, long_y) := xy in
   short_model <- fit_side short_x short_y ;;
   long_model <- fit_side long_x long_y ;;
   changes <- collect_changes base_curve simulated_curve pivot pivot_year
                base_pivot_rate shift (factor_of short_model)
                (factor_of long_model) ;;
   let '(short_changes, long_changes) := tally changes pivot_year ([], []) in
   Ok {| pivot_tenor := pivot;
         shift_value := Float.round shift 6;
         short_end_factor := Float.round (factor_of short_model) 6;
         long_end_factor := Float.round (factor_of long_model) 6;
         short_end_cap := Float.round (next_repeated short_changes NInf) 6;
         long_end_cap := Float.round (next_repeated long_changes PInf) 6 |}).
Proof. reflexivity. Qed.

Lemma getitem_rate_of (c : curve) (t : string) :
  In t (keys c) -> getitem c t = Ok (rate_of c t).
Proof.
  intro H. unfold getitem, rate_of.
  destruct (dict_get_some c t H) as [v ->]. reflexivity.
Qed.

Lemma dict_set_float_fresh {V : Type} (d : dict pyfloat V) (x : pyfloat) (v : V) :
  existsb (fun k => Float.eqb k x) (keys d) = false ->
  dict_set Float.eqb d x v = d ++ [(x, v)].
Proof.
  induction d as [| [k v'] d IH]; simpl; [reflexivity |].
  rewrite orb_false_iff. intros [H1 H2]. rewrite H1. f_equal. apply IH, H2.
Qed.

Ltac grid_cases H :=
  unfold grid in H; simpl in H;
  repeat (destruct H as [H | H]; [subst |]); try contradiction.

Lemma years_eqb_inj (t u : string) :
  In t grid -> In u grid ->
  Float.eqb (years t) (years u) = true -> t = u.
Proof.
  intros Ht Hu. grid_cases Ht; grid_cases Hu; intro H;
    try reflexivity; discriminate H.
Qed.

Lemma years_trichotomy (t u : string) :
  In t grid -> In u grid -> t <> u ->
  (years t <? years u)%float = negb (years t >? years u)%float.
Proof.
  intros Ht Hu. grid_cases Ht; grid_cases Hu; intro H;
    try reflexivity; now contradiction H.
Qed.

Section RecoverLoops.

Variables (base sim : curve) (pivot : string) (bp sh : pyfloat).

Let py : pyfloat := years pivot.

Let sample_body : samples -> string -> result samples :=
  fun '(short_x, short_y, long_x, long_y) tenor =>
    if String.eqb tenor pivot then
      Ok (short_x, short_y, long_x, long_y)
    else
      t_year <- getitem tenor_to_years tenor ;;
      let delta_years := (t_year - py)%float in
      base_rate <- getitem base tenor ;;
      sim_rate <- getitem sim tenor ;;
      let implied_change := (sim_rate - (bp + sh))%float in
      if (t_year <? py)%float then
        Ok (short_x ++ [[delta_years]], short_y ++ [implied_change],
            long_x, long_y)
      else
        Ok (short_x, short_y,
            long_x ++ [[delta_years]], long_y ++ [implied_change]).

Lemma sample_loop_ok (l : list string) sx sy lx ly :
  (forall t, In t l -> In t grid /\ In t (keys base) /\ In t (keys sim)) ->
  for_each l (sx, sy, lx, ly) sample_body =
  Ok (sx ++ map (sample_x pivot) (filter (on_short pivot) l),
      sy ++ map (sample_y sim bp sh) (filter (on_short pivot) l),
      lx ++ map (sample_x pivot) (filter (on_long pivot) l),
      ly ++ map (sample_y sim bp sh) (filter (on_long pivot) l)).
Proof.
  revert sx sy lx ly. induction l as [| t l IH]; intros sx sy lx ly H.
  - simpl. now rewrite !app_nil_r.
  - destruct (H t (or_introl eq_refl)) as [Hg [Hb Hs]].
    assert (H' : forall u, In u l ->
                   In u grid /\ In u (keys base) /\ In u (keys sim))
      by (intros u Hu; apply H; now right).
    cbn [for_each sample_body filter]. unfold on_short, on_long, py.
    destruct (String.eqb t pivot) eqn:E; cbn [bind negb andb].
    + apply IH, H'.
    + rewrite (getitem_years t Hg), (getitem_rate_of base t Hb),
        (getitem_rate_of sim t Hs). cbn [bind].
      destruct (years t <? years pivot)%float; cbn [bind negb map];
        rewrite (IH _ _ _ _ H'); rewrite <- !app_assoc; reflexivity.
Qed.

(** The loop raises at the first tenor the simulated curve does not define. *)
Lemma sample_loop_raise (l : list string) sx sy lx ly :
  (forall t, In t l -> In t grid /\ In t (keys base)) ->
  In pivot (keys sim) ->
  (exists t, In t l /\ ~ In t (keys sim)) ->
  exists k,
    for_each l (sx, sy, lx, ly) sample_body = Raise (KeyError k) /\
    In k l /\ ~ In k (keys sim).
Proof.
  revert sx sy lx ly. induction l as [| t l IH]; intros sx sy lx ly H Ps [m [Hm Hn]].
  - contradiction.
  - destruct (H t (or_introl eq_refl)) as [Hg Hb].
    assert (H' : forall u, In u l -> In u grid /\ In u (keys base))
      by (intros u Hu; apply H; now right).
    assert (Step : forall sx sy lx ly, In t (keys sim) ->
              exists k, for_each l (sx, sy, lx, ly) sample_body =
                        Raise (KeyError k) /\ In k (t :: l) /\ ~ In k (keys sim)).
    { intros sx' sy' lx' ly' Ht.
      destruct (IH sx' sy' lx' ly' H' Ps) as [k [Hk [Hin Hout]]].
      - exists m. split; [| exact Hn].
        destruct Hm as [<- | Hm]; [contradiction | exact Hm].
      - exists k. split; [exact Hk |]. split; [now right | exact Hout]. }
    cbn [for_each sample_body].
    destruct (String.eqb t pivot) eqn:E; cbn [bind].
    + apply String.eqb_eq in E. subst. apply Step, Ps.
    + rewrite (getitem_years t Hg), (getitem_rate_of base t Hb). cbn [bind].
      destruct (getitem sim t) as [v | e] eqn:Es; cbn [bind].
      * apply getitem_ok, dict_get_keys in Es.
        destruct (years t <? py)%float; cbn [bind]; apply Step, Es.
      * apply getitem_raise in Es. destruct Es as [Es ->].
        exists t. split; [reflexivity |]. split; [now left | exact Es].
Qed.

Variables (short_factor long_factor : pyfloat).

Let change_body : dict pyfloat pyfloat -> string -> result (dict pyfloat pyfloat) :=
  fun changes tenor =>
    if String.eqb tenor pivot then Ok changes
    else
      t_year <- getitem tenor_to_years tenor ;;
      let delta_years := (t_year - py)%float in
      let predicted_change :=
        (sh + delta_years * (if (t_year <? py)%float
                             then short_factor else long_factor))%float in
      sim_rate <- getitem sim tenor ;;
      let actual_change := (sim_rate - bp)%float in
      Ok (dict_set Float.eqb changes t_year actual_change).

Lemma change_loop_ok (l : list string) (acc : dict pyfloat pyfloat) :
  NoDup l ->
  (forall t, In t l -> In t grid /\ In t (keys sim)) ->
  (forall t, In t l ->
             existsb (fun k => Float.eqb k (years t)) (keys acc) = false) ->
  for_each l acc change_body =
  Ok (acc ++ map (change_entry sim bp)
               (filter (fun t => negb (String.eqb t pivot)) l)).
Proof.
  revert acc. induction l as [| t l IH]; intros acc N H F.
  - simpl. now rewrite app_nil_r.
  - destruct (H t (or_introl eq_refl)) as [Hg Hs].
    inversion N as [| ? ? Ht N']; subst.
    assert (H' : forall u, In u l -> In u grid /\ In u (keys sim))
      by (intros u Hu; apply H; now right).
    cbn [for_each filter]. unfold change_body at 1.
    destruct (String.eqb t pivot) eqn:E; cbn [bind negb].
    + apply IH; trivial. intros u Hu. apply F. now right.
    + rewrite (getitem_years t Hg), (getitem_rate_of sim t Hs). cbn [bind].
      rewrite dict_set_float_fresh by (apply F; now left).
      rewrite IH; trivial.
      * cbn [map]. rewrite <- app_assoc. reflexivity.
      * intros u Hu. unfold keys. rewrite map_app, existsb_app.
        fold (keys acc). rewrite (F u) by now right. simpl.
        rewrite orb_false_r.
        destruct (Float.eqb (years t) (years u)) eqn:Ey; trivial.
        apply years_eqb_inj in Ey; trivial; [| apply H'; exact Hu].
        subst. contradiction.
Qed.

End RecoverLoops.

Lemma tally_ok (changes : dict pyfloat pyfloat) (py : pyfloat)
    (a b : dict pyfloat Z) :
  tally changes py (a, b) =
  (count_all
     (map (fun e => Float.round (snd e) 8)
        (filter (fun e => (fst e <? py)%float) changes)) a,
   count_all
     (map (fun e => Float.round (snd e) 8)
        (filter (fun e => (fst e >? py)%float) changes)) b).
Proof.
  unfold tally, items, count_all. revert a b.
  induction changes as [| [k c] l IH]; intros a b; [reflexivity |].
  cbn [fold_left filter fst snd]. unfold Float.gtb.
  destruct (k <? py)%float eqn:E.
  - rewrite (FloatFacts.ltb_asym _ _ E). apply IH.
  - destruct (py <? k)%float; apply IH.
Qed.

Lemma on_short_side (base : curve) (pivot : string) :
  filter (on_short pivot) (keys base) = short_side base pivot.
Proof.
  apply filter_ext. intro t. unfold on_short.
  destruct (String.eqb t pivot) eqn:E; [| reflexivity].
  apply String.eqb_eq in E. subst. simpl. symmetry.
  apply FloatFacts.ltb_irrefl.
Qed.

Lemma on_long_side (base : curve) (pivot : string) :
  total_over_grid base -> In pivot grid ->
  filter (on_long pivot) (keys base) = long_side base pivot.
Proof.
  intros [_ T] P. apply filter_ext_in. intros t Ht. unfold on_long.
  destruct (String.eqb t pivot) eqn:E.
  - apply String.eqb_eq in E. subst. simpl. symmetry.
    apply FloatFacts.ltb_irrefl.
  - apply String.eqb_neq in E. simpl.
    rewrite (years_trichotomy t pivot); trivial; [| apply T, Ht].
    now rewrite negb_involutive.
Qed.

Lemma collect_samples_ok (base sim : curve) (pivot : string) (bp sh : pyfloat) :
  total_over_grid base -> total_over_grid sim -> In pivot grid ->
  collect_samples base sim pivot (years pivot) bp sh =
  Ok (map (sample_x pivot) (short_side base pivot),
      map (sample_y sim bp sh) (short_side base pivot),
      map (sample_x pivot) (long_side base pivot),
      map (sample_y sim bp sh) (long_side base pivot)).
Proof.
  intros Tb Ts P.
  rewrite <- (on_short_side base pivot), <- (on_long_side base pivot Tb P).
  apply (sample_loop_ok base sim pivot bp sh (keys base) [] [] [] []).
  intros t Ht. split; [apply Tb, Ht |]. split; [exact Ht |].
  apply Ts, Tb, Ht.
Qed.

Lemma collect_changes_ok (base sim : curve) (pivot : string)
    (bp sh f1 f2 : pyfloat) :
  total_over_grid base -> total_over_grid sim ->
  collect_changes base sim pivot (years pivot) bp sh f1 f2 =
  Ok (map (change_entry sim bp)
        (filter (fun t => negb (String.eqb t pivot)) (keys base))).
Proof.
  intros Tb Ts.
  apply (change_loop_ok sim pivot bp sh f1 f2 (keys base) []).
  - apply Tb.
  - intros t Ht. split; [apply Tb, Ht | apply Ts, Tb, Ht].
  - reflexivity.
Qed.

Lemma fit_empty_raises : LinearRegression_fit [] [] = Raise ValueError.
Proof. reflexivity. Qed.

Lemma fit_side_raise (x : list (list pyfloat)) (y : list pyfloat) (e : exn) :
  fit_side x y = Raise e ->
  LinearRegression_fit x y = Raise e /\ x <> [] /\ e = ValueError.
Proof.
  unfold fit_side. destruct x as [| row x]; [discriminate |].
  destruct (LinearRegression_fit (row :: x) y) as [m | e'] eqn:E;
    cbn [bind]; [discriminate |].
  intros [= <-]. split; [reflexivity |]. split; [discriminate |].
  revert E. unfold LinearRegression_fit.
  destruct (negb _); [now intros [= <-] |].
  destruct (negb _); [now intros [= <-] |]. discriminate.
Qed.

Lemma fit_side_empty (x : list (list pyfloat)) (y : list pyfloat)
    (model : option LinearRegression) :
  x = [] -> fit_side x y = Ok model -> model = None.
Proof. intros ->. now intros [= <-]. Qed.

Lemma fit_side_fitted (x : list (list pyfloat)) (y : list pyfloat)
    (model : LinearRegression) :
  LinearRegression_fit x y = Ok model -> fit_side x y = Ok (Some model).
Proof.
  unfold fit_side. destruct x as [| row x]; intro H.
  - revert H. unfold LinearRegression_fit.
    destruct (negb _); [discriminate |]. destruct (negb _); discriminate.
  - now rewrite H.
Qed.

Lemma filter_within {A : Type} (p q : A -> bool) (l : list A) :
  (forall a, p a = true -> q a = true) ->
  filter p (filter q l) = filter p l.
Proof.
  intro H. induction l as [| a l IH]; simpl; [reflexivity |].
  destruct (q a) eqn:Eq; simpl.
  - destruct (p a); [f_equal |]; exact IH.
  - destruct (p a) eqn:Ep; [| exact IH].
    rewrite (H a Ep) in Eq. discriminate.
Qed.

Lemma tally_changes (base sim : curve) (pivot : string) :
  tally (map (change_entry sim (rate_of base pivot))
           (filter (fun t => negb (String.eqb t pivot)) (keys base)))
    (years pivot) ([], []) =
  (count_all (rounded_changes base sim pivot (short_side base pivot)) [],
   count_all (rounded_changes base sim pivot (long_side base pivot)) []).
Proof.
  rewrite tally_ok. unfold rounded_changes, short_side, long_side.
  rewrite !filter_map_swap, !map_map. cbn [change_entry fst snd].
  assert (Hne : forall t u, Float.ltb (years t) (years u) = true ->
                          negb (String.eqb t u) = true).
  { intros t u H. destruct (String.eqb t u) eqn:E; [| reflexivity].
    apply String.eqb_eq in E. subst. rewrite FloatFacts.ltb_irrefl in H.
    discriminate. }
  f_equal; f_equal; f_equal; apply filter_within; intros t H.
  - apply (Hne t pivot H).
  - rewrite String.eqb_sym. apply (Hne pivot t H).
Qed.

(** [reverse_engineer_factors] on curves that are total over the grid:
    the two fits, then the record, field by field. *)
Lemma recover_cases (base sim : curve) (pivot : string) :
  total_over_grid base -> total_over_grid sim -> In pivot grid ->
  let bp := rate_of base pivot in
  let sh := (rate_of sim pivot - bp)%float in
  reverse_engineer_factors base sim pivot =
  (short_model <-
     fit_side (map (sample_x pivot) (short_side base pivot))
       (map (sample_y sim bp sh) (short_side base pivot)) ;;
   long_model <-
     fit_side (map (sample_x pivot) (long_side base pivot))
       (map (sample_y sim bp sh) (long_side base pivot)) ;;
   Ok {| pivot_tenor := pivot;
         shift_value := Float.round sh 6;
         short_end_factor := Float.round (factor_of short_model) 6;
         long_end_factor := Float.round (factor_of long_model) 6;
         short_end_cap :=
           Float.round
             (first_repeated
                (rounded_changes base sim pivot (short_side base pivot)) NInf) 6;
         long_end_cap :=
           Float.round
             (first_repeated
                (rounded_changes base sim pivot (long_side base pivot)) PInf) 6
      |}).
Proof.
  intros Tb Ts P bp sh.
  assert (Pb : In pivot (keys base)) by (apply Tb, P).
  assert (Ps : In pivot (keys sim)) by (apply Ts, P).
  rewrite reverse_engineer_factors_eq.
  rewrite (getitem_years pivot P), (getitem_rate_of base pivot Pb),
    (getitem_rate_of sim pivot Ps).
  cbn [bind]. fold bp. fold sh. cbv zeta.
  rewrite (collect_samples_ok base sim pivot bp sh Tb Ts P). cbn [bind].
  destruct (fit_side _ _) as [sm | e]; cbn [bind]; [| reflexivity].
  destruct (fit_side _ _) as [lm | e]; cbn [bind]; [| reflexivity].
  rewrite (collect_changes_ok base sim pivot bp sh _ _ Tb Ts). cbn [bind].
  unfold bp at 1. rewrite tally_changes.
  rewrite !CountFacts.next_repeated_count_all. reflexivity.
Qed.

(** A record returned on such curves: both fits have passed. *)
Lemma recover_ok_inv (base sim : curve) (pivot : string) (r : factors) :
  total_over_grid base -> total_over_grid sim -> In pivot grid ->
  reverse_engineer_factors base sim pivot = Ok r ->
  let bp := rate_of base pivot in
  let sh := (rate_of sim pivot - bp)%float in
  exists short_model long_model,
    fit_side (map (sample_x pivot) (short_side base pivot))
      (map (sample_y sim bp sh) (short_side base pivot)) = Ok short_model /\
    fit_side (map (sample_x pivot) (long_side base pivot))
      (map (sample_y sim bp sh) (long_side base pivot)) = Ok long_model /\
    r = {| pivot_tenor := pivot;
           shift_value := Float.round sh 6;
           short_end_factor := Float.round (factor_of short_model) 6;
           long_end_factor := Float.round (factor_of long_model) 6;
           short_end_cap :=
             Float.round
               (first_repeated
                  (rounded_changes base sim pivot (short_side base pivot))
                  NInf) 6;
           long_end_cap :=
             Float.round
               (first_repeated
                  (rounded_changes base sim pivot (long_side base pivot))
                  PInf) 6 |}.
Proof.
  intros Tb Ts P H bp sh.
  rewrite (recover_cases base sim pivot Tb Ts P) in H. fold bp sh in H.
  destruct (fit_side (map (sample_x pivot) (short_side base pivot)) _)
    as [sm | e]; cbn [bind] in H; [| discriminate].
  destruct (fit_side (map (sample_x pivot) (long_side base pivot)) _)
    as [lm | e]; cbn [bind] in H; [| discriminate].
  exists sm, lm. split; [reflexivity |]. split; [reflexivity |]. congruence.
Qed.

(** An exception raised on such curves is the exception of one of the two
    fits. *)
Lemma recover_raise_inv (base sim : curve) (pivot : string) (e : exn) :
  total_over_grid base -> total_over_grid sim -> In pivot grid ->
  reverse_engineer_factors base sim pivot = Raise e ->
  let bp := rate_of base pivot in
  let sh := (rate_of sim pivot - bp)%float in
  fit_side (map (sample_x pivot) (short_side base pivot))
    (map (sample_y sim bp sh) (short_side base pivot)) = Raise e \/
  fit_side (map (sample_x pivot) (long_side base pivot))
    (map (sample_y sim bp sh) (long_side base pivot)) = Raise e.
Proof.
  intros Tb Ts P H bp sh.
  rewrite (recover_cases base sim pivot Tb Ts P) in H. fold bp sh in H.
  destruct (fit_side (map (sample_x pivot) (short_side base pivot)) _)
    as [sm | e1]; cbn [bind] in H; [| left; congruence].
  destruct (fit_side (map (sample_x pivot) (long_side base pivot)) _)
    as [lm | e2]; cbn [bind] in H; [discriminate | right; congruence].
Qed.

(** The shift and the pivot of any record that is returned, for curves of
    any shape. *)
Lemma recover_shift (base sim : curve) (pivot : string) (r : factors) :
  reverse_engineer_factors base sim pivot = Ok r ->
  exists bp sp,
    getitem base pivot = Ok bp /\ getitem sim pivot = Ok sp /\
    shift_value r = Float.round (sp - bp) 6 /\ pivot_tenor r = pivot.
Proof.
  rewrite reverse_engineer_factors_eq.
  destruct (getitem tenor_to_years pivot) as [py | e]; cbn [bind];
    [| discriminate].
  destruct (getitem base pivot) as [bp | e]; cbn [bind]; [| discriminate].
  destruct (getitem sim pivot) as [sp | e]; cbn [bind]; [| discriminate].
  cbv zeta.
  destruct (collect_samples _ _ _ _ _ _) as [[[[sx sy] lx] ly] | e];
    cbn [bind]; [| discriminate].
  destruct (fit_side sx sy) as [sm | e]; cbn [bind]; [| discriminate].
  destruct (fit_side lx ly) as [lm | e]; cbn [bind]; [| discriminate].
  destruct (collect_changes _ _ _ _ _ _ _ _) as [changes | e];
    cbn [bind]; [| discriminate].
  destruct (tally changes py ([], [])) as [a b].
  intros [= <-]. exists bp, sp. repeat split; reflexivity.
Qed.

Lemma round_zero : Float.round (Fin 0) 6 = Fin 0.
Proof. reflexivity. Qed.

Lemma first_repeated_short (l : list pyfloat) (default : pyfloat) :
  (List.length l < 2)%nat -> first_repeated l default = default.
Proof.
  destruct l as [| v [| w l]]; simpl; intro H; try lia; [reflexivity |].
  unfold first_repeated. cbn [find]. rewrite CountFacts.occurrences_cons.
  unfold occurrences. cbn [filter List.length].
  now destruct (Float.eqb v v).
Qed.

Lemma nodup_singleton (a : string) (l : list string) :
  NoDup l -> (forall x, In x l -> x = a) -> (List.length l < 2)%nat.
Proof.
  intros N H. destruct l as [| x [| y l]]; simpl; try lia.
  exfalso. inversion N as [| ? ? Hx _]; subst. apply Hx.
  rewrite (H x), (H y); simpl; tauto.
Qed.

Lemma short_side_small (base : curve) (pivot : string) :
  total_over_grid base -> pivot = "3M" \/ pivot = "6M" ->
  (List.length (short_side base pivot) < 2)%nat.
Proof.
  intros [N T] Hp. apply (nodup_singleton "3M").
  - apply NoDup_filter, N.
  - intros t Ht. apply filter_In in Ht. destruct Ht as [Ht Hlt].
    apply T in Ht. destruct Hp; subst; grid_cases Ht;
      try reflexivity; discriminate Hlt.
Qed.

Lemma long_side_small (base : curve) (pivot : string) :
  total_over_grid base -> pivot = "7Y" \/ pivot = "5Y" ->
  (List.length (long_side base pivot) < 2)%nat.
Proof.
  intros [N T] Hp. apply (nodup_singleton "7Y").
  - apply NoDup_filter, N.
  - intros t Ht. apply filter_In in Ht. destruct Ht as [Ht Hlt].
    apply T in Ht. destruct Hp; subst; grid_cases Ht;
      try reflexivity; discriminate Hlt.
Qed.

(** C3 (amended). On curves total over the grid, a record that
    [reverse_engineer_factors] returns has as [short_end_cap] the value
    [round(v, 6)], where [v] is the first value
    [round(simulated[t] - base[pivot], 8)], in the iteration order of the
    base curve, that occurs more than once among the tenors with year
    fraction strictly below the pivot's, and negative infinity when no
    value repeats; [long_end_cap] is the same over the tenors strictly
    above the pivot, with positive infinity. *)
Theorem cap_detection (base sim : curve) (pivot : string) (r : factors) :
  total_over_grid base -> total_over_grid sim -> In pivot grid ->
  reverse_engineer_factors base sim pivot = Ok r ->
  short_end_cap r =
  Float.round
    (first_repeated
       (rounded_changes base sim pivot (short_side base pivot)) NInf) 6 /\
  long_end_cap r =
  Float.round
    (first_repeated
       (rounded_changes base sim pivot (long_side base pivot)) PInf) 6.
Proof.
  intros Tb Ts P H.
  destruct (recover_ok_inv base sim pivot r Tb Ts P H)
    as [sm [lm [_ [_ ->]]]].
  split; reflexivity.
Qed.

(** C8. An empty side never makes [reverse_engineer_factors] fail.  On
    curves total over the grid, when no tenor lies below the pivot: every
    record returned has [short_end_factor] equal to [0.0]; a record is
    returned whenever the fit of the long side returns a model, so the
    empty side is not fitted (a fit of an empty sample raises); and an
    exception can only be the [ValueError] that the fit of the long side
    raises on its sample.  The same holds for the long side and
    [long_end_factor]. *)
Theorem empty_side_factor (base sim : curve) (pivot : string) :
  total_over_grid base -> total_over_grid sim -> In pivot grid ->
  let bp := rate_of base pivot in
  let sh := (rate_of sim pivot - bp)%float in
  (short_side base pivot = [] ->
   (forall r, reverse_engineer_factors base sim pivot = Ok r ->
              short_end_factor r = Fin 0) /\
   (forall model,
      LinearRegression_fit
        (map (sample_x pivot) (long_side base pivot))
        (map (sample_y sim bp sh) (long_side base pivot)) = Ok model ->
      exists r, reverse_engineer_factors base sim pivot = Ok r) /\
   (forall e, reverse_engineer_factors base sim pivot = Raise e ->
              e = ValueError /\
              LinearRegression_fit
                (map (sample_x pivot) (long_side base pivot))
                (map (sample_y sim bp sh) (long_side base pivot)) = Raise e)) /\
  (long_side base pivot = [] ->
   (forall r, reverse_engineer_factors base sim pivot = Ok r ->
              long_end_factor r = Fin 0) /\
   (forall model,
      LinearRegression_fit
        (map (sample_x pivot) (short_side base pivot))
        (map (sample_y sim bp sh) (short_side base pivot)) = Ok model ->
      exists r, reverse_engineer_factors base sim pivot = Ok r) /\
   (forall e, reverse_engineer_factors base sim pivot = Raise e ->
              e = ValueError /\
              LinearRegression_fit
                (map (sample_x pivot) (short_side base pivot))
                (map (sample_y sim bp sh) (short_side base pivot)) = Raise e)).
Proof.
  intros Tb Ts P bp sh. split; intro E; (split; [| split]).
  - intros r H.
    destruct (recover_ok_inv base sim pivot r Tb Ts P H)
      as [sm [lm [Hs [_ ->]]]].
    cbn [short_end_factor].
    assert (Hn : sm = None)
      by (eapply fit_side_empty; [| exact Hs]; now rewrite E).
    subst sm. apply round_zero.
  - intros m Hm. rewrite (recover_cases base sim pivot Tb Ts P).
    fold bp sh. rewrite E. cbn [map fit_side bind].
    rewrite (fit_side_fitted _ _ _ Hm). cbn [bind]. eauto.
  - intros e H.
    destruct (recover_raise_inv base sim pivot e Tb Ts P H) as [Hs | Hl].
    + rewrite E in Hs. discriminate.
    + destruct (fit_side_raise _ _ _ Hl) as [Hf [_ He]]. now split.
  - intros r H.
    destruct (recover_ok_inv base sim pivot r Tb Ts P H)
      as [sm [lm [_ [Hl ->]]]].
    cbn [long_end_factor].
    assert (Hn : lm = None)
      by (eapply fit_side_empty; [| exact Hl]; now rewrite E).
    subst lm. apply round_zero.
  - intros m Hm. rewrite (recover_cases base sim pivot Tb Ts P).
    fold bp sh. rewrite E. cbn [map].
    rewrite (fit_side_fitted _ _ _ Hm). cbn [fit_side bind]. eauto.
  - intros e H.
    destruct (recover_raise_inv base sim pivot e Tb Ts P H) as [Hs | Hl].
    + destruct (fit_side_raise _ _ _ Hs) as [Hf [_ He]]. now split.
    + rewrite E in Hl. discriminate.
Qed.

(** C9. The recovered [shift_value] is
    [round(simulated[pivot] - base[pivot], 6)]: two runs with the same
    pivot and the same two rates at the pivot that each return a record
    return the same shift, whatever the rates at the other tenors. *)
Theorem shift_from_pivot_only (base1 sim1 base2 sim2 : curve) (pivot : string)
    (r1 r2 : factors) :
  getitem base1 pivot = getitem base2 pivot ->
  getitem sim1 pivot = getitem sim2 pivot ->
  reverse_engineer_factors base1 sim1 pivot = Ok r1 ->
  reverse_engineer_factors base2 sim2 pivot = Ok r2 ->
  exists bp sp,
    getitem base1 pivot = Ok bp /\ getitem sim1 pivot = Ok sp /\
    shift_value r1 = Float.round (sp - bp) 6 /\
    shift_value r2 = shift_value r1.
Proof.
  intros Eb Es H1 H2.
  destruct (recover_shift base1 sim1 pivot r1 H1)
    as [bp1 [sp1 [Hb1 [Hs1 [Hr1 _]]]]].
  destruct (recover_shift base2 sim2 pivot r2 H2)
    as [bp2 [sp2 [Hb2 [Hs2 [Hr2 _]]]]].
  exists bp1, sp1. split; [exact Hb1 |]. split; [exact Hs1 |].
  split; [exact Hr1 |].
  rewrite Eb in Hb1. rewrite Es in Hs1.
  assert (bp1 = bp2) by congruence. assert (sp1 = sp2) by congruence.
  subst. congruence.
Qed.

(** C10. A finite cap is reported only for a side with at least two
    tenors: on curves total over the grid, with pivot 3M or 6M fewer than
    two tenors lie below the pivot and every record returned has
    [short_end_cap] equal to negative infinity; with pivot 7Y or 5Y fewer
    than two lie above and [long_end_cap] is positive infinity. *)
Theorem cap_needs_two_tenors (base sim : curve) (pivot : string) (r : factors) :
  total_over_grid base -> total_over_grid sim -> In pivot grid ->
  reverse_engineer_factors base sim pivot = Ok r ->
  ((List.length (short_side base pivot) < 2)%nat -> short_end_cap r = NInf) /\
  ((List.length (long_side base pivot) < 2)%nat -> long_end_cap r = PInf) /\
  (pivot = "3M" \/ pivot = "6M" ->
   (List.length (short_side base pivot) < 2)%nat /\ short_end_cap r = NInf) /\
  (pivot = "7Y" \/ pivot = "5Y" ->
   (List.length (long_side base pivot) < 2)%nat /\ long_end_cap r = PInf).
Proof.
  intros Tb Ts P H.
  destruct (recover_ok_inv base sim pivot r Tb Ts P H)
    as [sm [lm [_ [_ ->]]]].
  cbn [short_end_cap long_end_cap].
  assert (Hs : (List.length (short_side base pivot) < 2)%nat ->
               Float.round
                 (first_repeated
                    (rounded_changes base sim pivot (short_side base pivot))
                    NInf) 6 = NInf).
  { intro L. rewrite first_repeated_short; [reflexivity |].
    unfold rounded_changes. now rewrite length_map. }
  assert (Hl : (List.length (long_side base pivot) < 2)%nat ->
               Float.round
                 (first_repeated
                    (rounded_changes base sim pivot (long_side base pivot))
                    PInf) 6 = PInf).
  { intro L. rewrite first_repeated_short; [reflexivity |].
    unfold rounded_changes. now rewrite length_map. }
  split; [exact Hs |]. split; [exact Hl |]. split; intro Hp.
  - pose proof (short_side_small base pivot Tb Hp) as L. auto.
  - pose proof (long_side_small base pivot Tb Hp) as L. auto.
Qed.

(** ** Missing tenors and values that are not finite *)

Lemma collect_samples_raise (base sim : curve) (pivot : string) (bp sh : pyfloat) :
  (forall t, In t (keys base) -> In t grid) ->
  In pivot (keys sim) ->
  (exists t, In t (keys base) /\ ~ In t (keys sim)) ->
  exists k,
    collect_samples base sim pivot (years pivot) bp sh = Raise (KeyError k) /\
    In k (keys base) /\ ~ In k (keys sim).
Proof.
  intros G Ps M.
  apply (sample_loop_raise base sim pivot bp sh (keys base) [] [] [] []);
    trivial.
  intros t Ht. split; [apply G, Ht | exact Ht].
Qed.

Lemma getitem_missing {V : Type} (d : dict string V) (k : string) :
  ~ In k (keys d) -> getitem d k = Raise (KeyError k).
Proof. intro H. apply getitem_raise. now split. Qed.

(** C2 (the code at the failing input).  The default base curve simulated
    around 2Y with shift 0.001, short factor 0.002, long factor 0.003 and
    no cap is reverse engineered to the factors 0.004571 and 0.005286:
    neither is within 1e-6 of the factor that produced the curve. *)
Theorem round_trip_factors_off :
  exists simulated r,
    simulate_yield_curve default_base_curve "2Y" (Fin (1 # 1000))
      (Fin (2 # 1000)) (Fin (3 # 1000)) NInf PInf = Ok simulated /\
    reverse_engineer_factors default_base_curve simulated "2Y" = Ok r /\
    short_end_factor r = Fin (4571 # 1000000) /\
    long_end_factor r = Fin (2643 # 500000) /\
    within (Fin (1 # 1000000)) (short_end_factor r) (Fin (2 # 1000)) = false /\
    within (Fin (1 # 1000000)) (long_end_factor r) (Fin (3 # 1000)) = false.
Proof.
  eexists. eexists. split; [vm_compute; reflexivity |].
  split; [vm_compute; reflexivity |].
  repeat split; reflexivity.
Qed.

(** C3 (counterexample).  With the simulated curve [twice_small_change]
    and pivot 1Y the first repeated 8-digit value of the short side is
    0.00000123, and the returned cap is 0.000001. *)
Lemma cap_is_rounded_again :
  exists r,
    reverse_engineer_factors default_base_curve twice_small_change "1Y" = Ok r /\
    first_repeated
      (rounded_changes default_base_curve twice_small_change "1Y"
         (short_side default_base_curve "1Y")) NInf
    = Fin (123 # 100000000) /\
    short_end_cap r = Fin (1 # 1000000) /\
    short_end_cap r <>
    first_repeated
      (rounded_changes default_base_curve twice_small_change "1Y"
         (short_side default_base_curve "1Y")) NInf.
Proof.
  eexists. split; [vm_compute; reflexivity |].
  split; [vm_compute; reflexivity |].
  split; [reflexivity |]. vm_compute. discriminate.
Qed.

(** C4 (counterexample).  A base curve without the 7Y tenor is accepted by
    both transforms. *)
Lemma missing_tenor_accepted :
  In "7Y" grid /\ ~ In "7Y" (keys base_without_7Y) /\
  (exists simulated,
     simulate_yield_curve base_without_7Y "2Y" (Fin (1 # 1000))
       (Fin (2 # 1000)) (Fin (3 # 1000)) (Fin 0) (Fin (15 # 10000))
     = Ok simulated) /\
  (exists r,
     reverse_engineer_factors base_without_7Y default_base_curve "2Y" = Ok r).
Proof.
  split; [simpl; tauto |]. split.
  - simpl. intuition discriminate.
  - split; eexists; vm_compute; reflexivity.
Qed.

(** C4 (amended).  The only check is the dictionary lookup.  For a base
    curve over tenors of the grid: when it omits the pivot, both transforms
    raise [KeyError] for the pivot; when it defines the pivot,
    [simulate_yield_curve] returns a curve over exactly the tenors
    supplied, whichever other tenors are left out;
    [reverse_engineer_factors] raises [KeyError] when the simulated curve
    omits the pivot or a tenor the base curve defines. *)
Theorem missing_tenor_behaviour (base sim : curve) (pivot : string)
    (s fs fl cs cl : pyfloat) :
  In pivot grid ->
  NoDup (keys base) -> (forall k, In k (keys base) -> In k grid) ->
  (~ In pivot (keys base) ->
   simulate_yield_curve base pivot s fs fl cs cl = Raise (KeyError pivot) /\
   reverse_engineer_factors base sim pivot = Raise (KeyError pivot)) /\
  (In pivot (keys base) ->
   exists simulated,
     simulate_yield_curve base pivot s fs fl cs cl = Ok simulated /\
     keys simulated = keys base) /\
  (In pivot (keys base) -> ~ In pivot (keys sim) ->
   reverse_engineer_factors base sim pivot = Raise (KeyError pivot)) /\
  (In pivot (keys base) -> In pivot (keys sim) ->
   (exists t, In t (keys base) /\ ~ In t (keys sim)) ->
   exists k,
     reverse_engineer_factors base sim pivot = Raise (KeyError k) /\
     In k (keys base) /\ ~ In k (keys sim)).
Proof.
  intros P N G. split; [| split; [| split]].
  - intro M. split.
    + unfold simulate_yield_curve. rewrite (getitem_years pivot P).
      cbn [bind]. now rewrite (getitem_missing base pivot M).
    + rewrite reverse_engineer_factors_eq, (getitem_years pivot P).
      cbn [bind]. now rewrite (getitem_missing base pivot M).
  - intro Pb.
    destruct (simulate_lookup_partial base pivot s fs fl cs cl N G Pb)
      as [simulated [pr [H [_ [K _]]]]].
    exists simulated. now split.
  - intros Pb M.
    rewrite reverse_engineer_factors_eq, (getitem_years pivot P),
      (getitem_rate_of base pivot Pb).
    cbn [bind]. now rewrite (getitem_missing sim pivot M).
  - intros Pb Ps M.
    destruct (collect_samples_raise base sim pivot (rate_of base pivot)
                (rate_of sim pivot - rate_of base pivot)%float G Ps M)
      as [k [Hk [Hin Hout]]].
    exists k. split; [| now split].
    rewrite reverse_engineer_factors_eq, (getitem_years pivot P),
      (getitem_rate_of base pivot Pb), (getitem_rate_of sim pivot Ps).
    cbn [bind]. cbv zeta. now rewrite Hk.
Qed.



Lemma for_each_ext {A S : Type} (l : list A) (s : S)
    (f g : S -> A -> result S) :
  (forall s' a, In a l -> f s' a = g s' a) ->
  for_each l s f = for_each l s g.
Proof.
  revert s. induction l as [| a l IH]; intros s H; [reflexivity |].
  cbn [for_each]. rewrite (H s a) by now left.
  destruct (g s a) as [s' | e]; cbn [bind]; [| reflexivity].
  apply IH. intros s'' b Hb. apply H. now right.
Qed.

(** The base rates away from the pivot are read and never used: the
    outcome depends on the base curve only through its keys and its rate at
    the pivot. *)
Lemma recover_base_irrelevant (base1 base2 sim : curve) (pivot : string) :
  keys base1 = keys base2 ->
  getitem base1 pivot = getitem base2 pivot ->
  reverse_engineer_factors base1 sim pivot =
  reverse_engineer_factors base2 sim pivot.
Proof.
  intros K E. rewrite !reverse_engineer_factors_eq, E.
  destruct (getitem tenor_to_years pivot) as [py | e]; cbn [bind];
    [| reflexivity].
  destruct (getitem base2 pivot) as [bp | e]; cbn [bind]; [| reflexivity].
  destruct (getitem sim pivot) as [sp | e]; cbn [bind]; [| reflexivity].
  cbv zeta.
  assert (Hs : collect_samples base1 sim pivot py bp (sp - bp)%float =
               collect_samples base2 sim pivot py bp (sp - bp)%float).
  { unfold collect_samples. rewrite K. apply for_each_ext.
    intros [[[sx sy] lx] ly] t Ht.
    destruct (String.eqb t pivot); [reflexivity |].
    destruct (getitem tenor_to_years t) as [y | e]; cbn [bind];
      [| reflexivity].
    rewrite (getitem_rate_of base1 t) by (now rewrite K).
    rewrite (getitem_rate_of base2 t) by exact Ht.
    reflexivity. }
  assert (Hc : forall f1 f2,
             collect_changes base1 sim pivot py bp (sp - bp)%float f1 f2 =
             collect_changes base2 sim pivot py bp (sp - bp)%float f1 f2).
  { intros f1 f2. unfold collect_changes. now rewrite K. }
  rewrite Hs.
  destruct (collect_samples base2 sim pivot py bp (sp - bp)%float)
    as [[[[sx sy] lx] ly] | e]; cbn [bind]; [| reflexivity].
  destruct (fit_side sx sy) as [sm | e]; cbn [bind]; [| reflexivity].
  destruct (fit_side lx ly) as [lm | e]; cbn [bind]; [| reflexivity].
  now rewrite Hc.
Qed.




(** ** The scenario of the specification *)

(** The default base curve with pivot 2Y, shift 0.001, factors 0.002 and
    0.003, caps 0.0 and 0.0015: the simulated rates are 0.035 at 2Y, 0.032
    at 1Y and 0.0465 at 7Y. *)
Example concrete_scenario :
  simulate_yield_curve default_base_curve "2Y" (Fin (1 # 1000))
    (Fin (2 # 1000)) (Fin (3 # 1000)) (Fin 0) (Fin (15 # 10000)) =
  Ok [ ("3M", Fin (3 # 100));
       ("6M", Fin (31 # 1000));
       ("1Y", Fin (4 # 125));
       ("2Y", Fin (7 # 200));
       ("3Y", Fin (3 # 80));
       ("4Y", Fin (79 # 2000));
       ("5Y", Fin (17 # 400));
       ("7Y", Fin (93 # 2000)) ].
Proof. vm_compute. reflexivity. Qed.

(** The record recovered from a curve whose two shortest tenors repeat a
    change of 0.00000123 over the 1Y base rate. *)
Example recovered_from_twice_small_change :
  reverse_engineer_factors default_base_curve twice_small_change "1Y" =
  Ok {| pivot_tenor := "1Y";
        shift_value := Fin 0;
        short_end_factor := Fin 0;
        long_end_factor := Fin (2243 # 1000000);
        short_end_cap := Fin (1 # 1000000);
        long_end_cap := PInf |}.
Proof. vm_compute. reflexivity. Qed.

(** ** The theorems at concrete curves *)

Lemma default_total : total_over_grid default_base_curve.
Proof. apply total_over_gridb_ok. reflexivity. Qed.

Lemma default_finite : finite_rates default_base_curve.
Proof. apply finite_ratesb_ok. reflexivity. Qed.

Lemma twice_small_change_total : total_over_grid twice_small_change.
Proof. apply total_over_gridb_ok. reflexivity. Qed.

Lemma base_with_nan_total : total_over_grid base_with_nan.
Proof. apply total_over_gridb_ok. reflexivity. Qed.

Lemma in_grid_b (t : string) : mem t grid = true -> In t grid.
Proof. apply mem_in. Qed.

Lemma recovered_1Y_ok :
  reverse_engineer_factors default_base_curve twice_small_change "1Y"
  = Ok recovered_1Y.
Proof. vm_compute. reflexivity. Qed.

Lemma recovered_6M_ok :
  reverse_engineer_factors default_base_curve twice_small_change "6M"
  = Ok recovered_6M.
Proof. vm_compute. reflexivity. Qed.

Lemma recovered_unchanged_1Y_ok :
  reverse_engineer_factors default_base_curve default_base_curve "1Y"
  = Ok recovered_unchanged_1Y.
Proof. vm_compute. reflexivity. Qed.

Lemma cap_detection_witness :
  total_over_grid default_base_curve /\ total_over_grid twice_small_change /\
  In "1Y" grid /\
  reverse_engineer_factors default_base_curve twice_small_change "1Y"
  = Ok recovered_1Y /\
  short_end_cap recovered_1Y =
  Float.round
    (first_repeated
       (rounded_changes default_base_curve twice_small_change "1Y"
          (short_side default_base_curve "1Y")) NInf) 6 /\
  long_end_cap recovered_1Y =
  Float.round
    (first_repeated
       (rounded_changes default_base_curve twice_small_change "1Y"
          (long_side default_base_curve "1Y")) PInf) 6.
Proof.
  pose proof default_total as Tb. pose proof twice_small_change_total as Ts.
  assert (P : In "1Y" grid) by (apply in_grid_b; reflexivity).
  pose proof recovered_1Y_ok as H.
  repeat (split; [assumption |]).
  exact (cap_detection default_base_curve twice_small_change "1Y"
           recovered_1Y Tb Ts P H).
Defined.

Lemma missing_tenor_behaviour_witness :
  In "2Y" grid /\ NoDup (keys default_base_curve) /\
  (forall k, In k (keys default_base_curve) -> In k grid) /\
  (~ In "2Y" (keys default_base_curve) ->
   simulate_yield_curve default_base_curve "2Y" (Fin (1 # 1000))
     (Fin (2 # 1000)) (Fin (3 # 1000)) (Fin 0) (Fin (15 # 10000))
   = Raise (KeyError "2Y") /\
   reverse_engineer_factors default_base_curve base_without_7Y "2Y"
   = Raise (KeyError "2Y")) /\
  (In "2Y" (keys default_base_curve) ->
   exists simulated,
     simulate_yield_curve default_base_curve "2Y" (Fin (1 # 1000))
       (Fin (2 # 1000)) (Fin (3 # 1000)) (Fin 0) (Fin (15 # 10000))
     = Ok simulated /\
     keys simulated = keys default_base_curve) /\
  (In "2Y" (keys default_base_curve) -> ~ In "2Y" (keys base_without_7Y) ->
   reverse_engineer_factors default_base_curve base_without_7Y "2Y"
   = Raise (KeyError "2Y")) /\
  (In "2Y" (keys default_base_curve) -> In "2Y" (keys base_without_7Y) ->
   (exists t, In t (keys default_base_curve) /\ ~ In t (keys base_without_7Y)) ->
   exists k,
     reverse_engineer_factors default_base_curve base_without_7Y "2Y"
     = Raise (KeyError k) /\
     In k (keys default_base_curve) /\ ~ In k (keys base_without_7Y)).
Proof.
  assert (P : In "2Y" grid) by (apply in_grid_b; reflexivity).
  destruct default_total as [N G].
  assert (G' : forall k, In k (keys default_base_curve) -> In k grid)
    by (intros k H; apply G, H).
  split; [exact P |]. split; [exact N |]. split; [exact G' |].
  exact (missing_tenor_behaviour default_base_curve base_without_7Y "2Y"
           (Fin (1 # 1000)) (Fin (2 # 1000)) (Fin (3 # 1000)) (Fin 0)
           (Fin (15 # 10000)) P N G').
Defined.


Lemma empty_side_factor_witness :
  total_over_grid default_base_curve /\ total_over_grid twice_small_change /\
  In "3M" grid /\
  (short_side default_base_curve "3M" = [] ->
   (forall r,
      reverse_engineer_factors default_base_curve twice_small_change "3M"
      = Ok r -> short_end_factor r = Fin 0) /\
   (forall model,
      LinearRegression_fit
        (map (sample_x "3M") (long_side default_base_curve "3M"))
        (map (sample_y twice_small_change (rate_of default_base_curve "3M")
                (rate_of twice_small_change "3M"
                 - rate_of default_base_curve "3M"))
           (long_side default_base_curve "3M")) = Ok model ->
      exists r,
        reverse_engineer_factors default_base_curve twice_small_change "3M"
        = Ok r) /\
   (forall e,
      reverse_engineer_factors default_base_curve twice_small_change "3M"
      = Raise e ->
      e = ValueError /\
      LinearRegression_fit
        (map (sample_x "3M") (long_side default_base_curve "3M"))
        (map (sample_y twice_small_change (rate_of default_base_curve "3M")
                (rate_of twice_small_change "3M"
                 - rate_of default_base_curve "3M"))
           (long_side default_base_curve "3M")) = Raise e)) /\
  (long_side default_base_curve "3M" = [] ->
   (forall r,
      reverse_engineer_factors default_base_curve twice_small_change "3M"
      = Ok r -> long_end_factor r = Fin 0) /\
   (forall model,
      LinearRegression_fit
        (map (sample_x "3M") (short_side default_base_curve "3M"))
        (map (sample_y twice_small_change (rate_of default_base_curve "3M")
                (rate_of twice_small_change "3M"
                 - rate_of default_base_curve "3M"))
           (short_side default_base_curve "3M")) = Ok model ->
      exists r,
        reverse_engineer_factors default_base_curve twice_small_change "3M"
        = Ok r) /\
   (forall e,
      reverse_engineer_factors default_base_curve twice_small_change "3M"
      = Raise e ->
      e = ValueError /\
      LinearRegression_fit
        (map (sample_x "3M") (short_side default_base_curve "3M"))
        (map (sample_y twice_small_change (rate_of default_base_curve "3M")
                (rate_of twice_small_change "3M"
                 - rate_of default_base_curve "3M"))
           (short_side default_base_curve "3M")) = Raise e)).
Proof.
  pose proof default_total as Tb. pose proof twice_small_change_total as Ts.
  assert (P : In "3M" grid) by (apply in_grid_b; reflexivity).
  repeat (split; [assumption |]).
  exact (empty_side_factor default_base_curve twice_small_change "3M" Tb Ts P).
Defined.

Lemma shift_from_pivot_only_witness :
  getitem default_base_curve "1Y" = getitem default_base_curve "1Y" /\
  getitem twice_small_change "1Y" = getitem default_base_curve "1Y" /\
  reverse_engineer_factors default_base_curve twice_small_change "1Y"
  = Ok recovered_1Y /\
  reverse_engineer_factors default_base_curve default_base_curve "1Y"
  = Ok recovered_unchanged_1Y /\
  exists bp sp,
    getitem default_base_curve "1Y" = Ok bp /\
    getitem twice_small_change "1Y" = Ok sp /\
    shift_value recovered_1Y = Float.round (sp - bp) 6 /\
    shift_value recovered_unchanged_1Y = shift_value recovered_1Y.
Proof.
  pose proof recovered_1Y_ok as H1. pose proof recovered_unchanged_1Y_ok as H2.
  split; [reflexivity |]. split; [reflexivity |].
  split; [exact H1 |]. split; [exact H2 |].
  exact (shift_from_pivot_only default_base_curve twice_small_change
           default_base_curve default_base_curve "1Y"
           recovered_1Y recovered_unchanged_1Y eq_refl eq_refl H1 H2).
Defined.

Lemma cap_needs_two_tenors_witness :
  total_over_grid default_base_curve /\ total_over_grid twice_small_change /\
  In "6M" grid /\
  reverse_engineer_factors default_base_curve twice_small_change "6M"
  = Ok recovered_6M /\
  ((List.length (short_side default_base_curve "6M") < 2)%nat ->
   short_end_cap recovered_6M = NInf) /\
  ((List.length (long_side default_base_curve "6M") < 2)%nat ->
   long_end_cap recovered_6M = PInf) /\
  ("6M" = "3M" \/ "6M" = "6M" ->
   (List.length (short_side default_base_curve "6M") < 2)%nat /\
   short_end_cap recovered_6M = NInf) /\
  ("6M" = "7Y" \/ "6M" = "5Y" ->
   (List.length (long_side default_base_curve "6M") < 2)%nat /\
   long_end_cap recovered_6M = PInf).
Proof.
  pose proof default_total as Tb. pose proof twice_small_change_total as Ts.
  assert (P : In "6M" grid) by (apply in_grid_b; reflexivity).
  pose proof recovered_6M_ok as H.
  repeat (split; [assumption |]).
  exact (cap_needs_two_tenors default_base_curve twice_small_change "6M"
           recovered_6M Tb Ts P H).
Defined.

(** * Further properties of the code *)

(** ** More on floats *)

Module RoundFacts.

Local Open Scope Q_scope.

Lemma le_refl (x : pyfloat) : is_nan x = false -> Float.le x x.
Proof.
  unfold Float.le. destruct x as [a| | |]; try discriminate; try reflexivity.
  intros _. apply FloatFacts.leb_fin. apply Qle_refl.
Qed.

Lemma le_total (x y : pyfloat) :
  is_nan x = false -> is_nan y = false ->
  Float.ltb x y = false -> Float.le y x.
Proof.
  unfold Float.le.
  destruct x as [a| | |], y as [b| | |]; try discriminate; try reflexivity.
  simpl. intros _ _ H. apply FloatFacts.Qltb_ge in H.
  apply FloatFacts.leb_fin, H.
Qed.

Lemma lt_le (x y : pyfloat) : Float.ltb x y = true -> Float.le x y.
Proof. unfold Float.le, Float.leb. now intros ->. Qed.

Lemma max_ge_l (x c : pyfloat) :
  is_nan x = false -> Float.le x (Float.max x c).
Proof.
  intro Hx. unfold Float.max, Float.gtb.
  destruct (Float.ltb x c) eqn:E; [apply lt_le, E | apply le_refl, Hx].
Qed.

Lemma max_ge_r (x c : pyfloat) :
  is_nan x = false -> is_nan c = false -> Float.le c (Float.max x c).
Proof.
  intros Hx Hc. unfold Float.max, Float.gtb.
  destruct (Float.ltb x c) eqn:E; [apply le_refl, Hc | now apply le_total].
Qed.

Lemma min_le_l (x c : pyfloat) :
  is_nan x = false -> Float.le (Float.min x c) x.
Proof.
  intro Hx. unfold Float.min.
  destruct (Float.ltb c x) eqn:E; [apply lt_le, E | apply le_refl, Hx].
Qed.

Lemma min_le_r (x c : pyfloat) :
  is_nan x = false -> is_nan c = false -> Float.le (Float.min x c) c.
Proof.
  intros Hx Hc. unfold Float.min.
  destruct (Float.ltb c x) eqn:E; [apply le_refl, Hc | now apply le_total].
Qed.

Lemma min_mono_r (x c1 c2 : pyfloat) :
  is_nan x = false -> Float.le c1 c2 ->
  Float.le (Float.min x c1) (Float.min x c2).
Proof.
  unfold Float.le, Float.min.
  destruct x as [a| | |]; try discriminate; intros _;
    destruct c1 as [b| | |], c2 as [c| | |]; simpl; try discriminate; trivial;
    repeat match goal with
           | |- context [Qltb ?u ?v] =>
               let E := fresh "E" in
               destruct (Qltb u v) eqn:E;
               [apply FloatFacts.Qltb_lt in E | apply FloatFacts.Qltb_ge in E]
           end;
    rewrite ?FloatFacts.leb_fin; try reflexivity; try discriminate;
    intros; try lra.
Qed.

Lemma max_ninf (x : pyfloat) : Float.max x NInf = x.
Proof. now destruct x. Qed.

Lemma min_pinf (x : pyfloat) : Float.min x PInf = x.
Proof. now destruct x. Qed.

Lemma nan_max (x c : pyfloat) :
  is_nan x = false -> is_nan c = false -> is_nan (Float.max x c) = false.
Proof. intros Hx Hc. unfold Float.max. now destruct (Float.gtb c x). Qed.

Lemma nan_min (x c : pyfloat) :
  is_nan x = false -> is_nan c = false -> is_nan (Float.min x c) = false.
Proof. intros Hx Hc. unfold Float.min. now destruct (Float.ltb c x). Qed.

Lemma finite_not_nan (x : pyfloat) : is_finite x = true -> is_nan x = false.
Proof. now destruct x. Qed.

Lemma round_half_even_compat (a b : Q) :
  a == b -> round_half_even a = round_half_even b.
Proof.
  intro H. unfold round_half_even.
  assert (Hf : Qfloor a = Qfloor b) by (rewrite H; reflexivity).
  rewrite Hf.
  assert (Hc : (a - inject_Z (Qfloor b) ?= 1 # 2) =
               (b - inject_Z (Qfloor b) ?= 1 # 2)) by (rewrite H; reflexivity).
  now rewrite Hc.
Qed.

(** Equal rationals round to the same float. *)
Lemma round_compat (a b : Q) (n : Z) :
  a == b -> Float.round (Fin a) n = Float.round (Fin b) n.
Proof.
  intro H. unfold Float.round. f_equal. apply Qred_complete.
  rewrite (round_half_even_compat (a * (10 # 1) ^ n) (b * (10 # 1) ^ n));
    [reflexivity | now rewrite H].
Qed.

Lemma round_half_even_Z (q : Q) (m : Z) :
  q == inject_Z m -> round_half_even q = m.
Proof.
  intro H. rewrite (round_half_even_compat q (inject_Z m) H).
  unfold round_half_even. rewrite Qfloor_Z.
  assert (E : (inject_Z m - inject_Z m ?= 1 # 2) = Lt).
  { apply (proj1 (Qlt_alt _ _)). generalize (inject_Z m). intro z. lra. }
  now rewrite E.
Qed.

(** Rounding twice to the same number of digits is rounding once. *)
Lemma round_idem (x : pyfloat) (n : Z) :
  Float.round (Float.round x n) n = Float.round x n.
Proof.
  destruct x as [a| | |]; try reflexivity.
  unfold Float.round. f_equal. apply Qred_complete.
  pose proof (FloatFacts.pow10_pos n) as Hp.
  set (p := (10 # 1) ^ n) in *.
  set (m := round_half_even (a * p)).
  rewrite (round_half_even_Z (Qred (inject_Z m / p) * p) m); [reflexivity |].
  rewrite Qred_correct. field. lra.
Qed.

End RoundFacts.

(** ** More on the simulation *)

Lemma raw_change_finite (t pivot : string) (s f : pyfloat) :
  In t grid -> In pivot grid -> is_finite s = true -> is_finite f = true ->
  is_finite (s + (years t - years pivot) * f)%float = true.
Proof.
  intros Ht Hp Hs Hf.
  destruct (years_finite t Ht) as [qt ->].
  destruct (years_finite pivot Hp) as [qp ->].
  destruct s; try discriminate. destruct f; try discriminate. reflexivity.
Qed.

Lemma nan_add_finite (x y : pyfloat) :
  is_finite x = true -> is_nan y = false -> is_nan (x + y)%float = false.
Proof. destruct x, y; try discriminate; reflexivity. Qed.

Lemma add_zero_round (x : pyfloat) (z : Q) (n : Z) :
  (z == 0)%Q -> Float.round (x + Fin z) n = Float.round x n.
Proof.
  intro Hz. destruct x as [a| | |]; try reflexivity.
  unfold Float.add. apply RoundFacts.round_compat.
  rewrite Qred_correct, Hz. ring.
Qed.

Lemma zero_change (t pivot : string) :
  In t grid -> In pivot grid ->
  exists z, (Fin 0 + (years t - years pivot) * Fin 0)%float = Fin z /\ (z == 0)%Q.
Proof.
  intros Ht Hp.
  destruct (years_finite t Ht) as [qt ->].
  destruct (years_finite pivot Hp) as [qp ->].
  eexists. split; [reflexivity |]. rewrite !Qred_correct. ring.
Qed.

(** X1. Cap monotonicity on the long end: with finite base rates, shift and
    long-end factor, a larger long-end cap never gives a smaller simulated
    rate at a tenor above the pivot. *)
Theorem long_cap_monotone (base : curve) (pivot : string)
    (s fs fl cs cl1 cl2 : pyfloat) :
  total_over_grid base -> finite_rates base -> In pivot grid ->
  is_finite s = true -> is_finite fl = true ->
  Float.le cl1 cl2 ->
  exists sim1 sim2,
    simulate_yield_curve base pivot s fs fl cs cl1 = Ok sim1 /\
    simulate_yield_curve base pivot s fs fl cs cl2 = Ok sim2 /\
    forall t,
      In t grid -> (years t >? years pivot)%float = true ->
      exists r1 r2,
        getitem sim1 t = Ok r1 /\ getitem sim2 t = Ok r2 /\ Float.le r1 r2.
Proof.
  intros T F P Fs Ffl Hc.
  destruct (simulate_lookup base pivot s fs fl cs cl1 T P)
    as [sim1 [pr1 [Hsim1 [_ [_ Hget1]]]]].
  destruct (simulate_lookup base pivot s fs fl cs cl2 T P)
    as [sim2 [pr2 [Hsim2 [_ [_ Hget2]]]]].
  exists sim1, sim2. split; [exact Hsim1 |]. split; [exact Hsim2 |].
  intros t Gt Hgt.
  destruct (dict_get_some base t (proj2 (proj2 T t) Gt)) as [rate Hrate].
  pose proof (F t rate (dict_get_in _ _ _ Hrate)) as Frate.
  apply getitem_ok in Hrate.
  do 2 eexists. split; [apply (Hget1 t rate Hrate) |].
  split; [apply (Hget2 t rate Hrate) |].
  rewrite !simulated_rate_long by assumption.
  pose proof (RoundFacts.finite_not_nan _
                (raw_change_finite t pivot s fl Gt P Fs Ffl)) as Hraw.
  assert (Hn1 : is_nan cl1 = false) by (destruct cl1, cl2; trivial; discriminate).
  assert (Hn2 : is_nan cl2 = false) by (destruct cl1, cl2; trivial; discriminate).
  apply FloatFacts.round_mono.
  apply FloatFacts.add_mono_r; trivial.
  - now apply RoundFacts.nan_min.
  - now apply RoundFacts.nan_min.
  - now apply RoundFacts.min_mono_r.
Qed.

(** X2. The short-end cap is a floor and the long-end cap a ceiling of the
    change: with finite base rates, shift and factors and caps that are
    numbers, a simulated rate below the pivot is at least
    [round(base[t] + short_cap, 6)] and at least the uncapped rate; a
    simulated rate above the pivot is at most [round(base[t] + long_cap, 6)]
    and at most the uncapped rate. *)
Theorem caps_bound_rates (base : curve) (pivot : string)
    (s fs fl cs cl : pyfloat) :
  total_over_grid base -> finite_rates base -> In pivot grid ->
  is_finite s = true -> is_finite fs = true -> is_finite fl = true ->
  is_nan cs = false -> is_nan cl = false ->
  exists simulated,
    simulate_yield_curve base pivot s fs fl cs cl = Ok simulated /\
    forall t rate,
      getitem base t = Ok rate ->
      let ty := years t in
      let py := years pivot in
      ((ty <? py)%float = true ->
       exists r, getitem simulated t = Ok r /\
                 Float.le (Float.round (rate + cs) 6) r /\
                 Float.le (Float.round (rate + (s + (ty - py) * fs)) 6) r) /\
      ((ty >? py)%float = true ->
       exists r, getitem simulated t = Ok r /\
                 Float.le r (Float.round (rate + cl) 6) /\
                 Float.le r (Float.round (rate + (s + (ty - py) * fl)) 6)).
Proof.
  intros T F P Fs Ffs Ffl Ncs Ncl.
  destruct (simulate_lookup base pivot s fs fl cs cl T P)
    as [sim [pr [Hsim [_ [_ Hget]]]]].
  exists sim. split; [exact Hsim |].
  intros t rate Ht ty py. subst ty py.
  assert (Gt : In t grid).
  { apply T. apply getitem_ok in Ht. apply (dict_get_keys _ _ _ Ht). }
  assert (Frate : is_finite rate = true).
  { apply getitem_ok in Ht. apply (F t rate (dict_get_in _ _ _ Ht)). }
  pose proof (RoundFacts.finite_not_nan _
                (raw_change_finite t pivot s fs Gt P Fs Ffs)) as Hs.
  pose proof (RoundFacts.finite_not_nan _
                (raw_change_finite t pivot s fl Gt P Fs Ffl)) as Hl.
  split; intro H; eexists; (split; [apply (Hget t rate Ht) |]).
  - rewrite simulated_rate_short by assumption.
    split; apply FloatFacts.round_mono, FloatFacts.add_mono_r; trivial;
      try (now apply RoundFacts.nan_max).
    + now apply RoundFacts.max_ge_r.
    + now apply RoundFacts.max_ge_l.
  - rewrite simulated_rate_long by assumption.
    split; apply FloatFacts.round_mono, FloatFacts.add_mono_r; trivial;
      try (now apply RoundFacts.nan_min).
    + now apply RoundFacts.min_le_r.
    + now apply RoundFacts.min_le_l.
Qed.

(** X3. Infinite caps never bind: with [short_end_cap = -inf] and
    [long_end_cap = +inf] the simulated rate of a tenor away from the pivot
    is [round(base[t] + shift + (ty - py) * factor, 6)] with the factor of
    its side, for all values of the rates and parameters. *)
Theorem infinite_caps_never_bind (base : curve) (pivot : string)
    (s fs fl : pyfloat) :
  total_over_grid base -> In pivot grid ->
  exists simulated,
    simulate_yield_curve base pivot s fs fl NInf PInf = Ok simulated /\
    forall t rate,
      getitem base t = Ok rate ->
      let ty := years t in
      let py := years pivot in
      ((ty <? py)%float = true ->
       getitem simulated t = Ok (Float.round (rate + (s + (ty - py) * fs)) 6)) /\
      ((ty >? py)%float = true ->
       getitem simulated t = Ok (Float.round (rate + (s + (ty - py) * fl)) 6)).
Proof.
  intros T P.
  destruct (simulate_lookup base pivot s fs fl NInf PInf T P)
    as [sim [pr [Hsim [_ [_ Hget]]]]].
  exists sim. split; [exact Hsim |].
  intros t rate Ht ty py. subst ty py. rewrite (Hget t rate Ht). split; intro H.
  - rewrite simulated_rate_short by assumption.
    now rewrite RoundFacts.max_ninf.
  - rewrite simulated_rate_long by assumption.
    now rewrite RoundFacts.min_pinf.
Qed.

(** X4. The identity scenario: with shift and factors zero and infinite
    caps every simulated rate is the base rate rounded to six digits,
    [round(base[t], 6)], whatever the base rates are. *)
Theorem identity_scenario (base : curve) (pivot : string) :
  total_over_grid base -> In pivot grid ->
  exists simulated,
    simulate_yield_curve base pivot (Fin 0) (Fin 0) (Fin 0) NInf PInf
    = Ok simulated /\
    keys simulated = keys base /\
    forall t rate,
      getitem base t = Ok rate ->
      getitem simulated t = Ok (Float.round rate 6).
Proof.
  intros T P.
  destruct (simulate_lookup base pivot (Fin 0) (Fin 0) (Fin 0) NInf PInf T P)
    as [sim [pr [Hsim [Hpr [K Hget]]]]].
  exists sim. split; [exact Hsim |]. split; [exact K |].
  intros t rate Ht. rewrite (Hget t rate Ht). f_equal.
  assert (Gt : In t grid).
  { apply T. apply getitem_ok in Ht. apply (dict_get_keys _ _ _ Ht). }
  destruct (zero_change t pivot Gt P) as [z [Hz Hz0]].
  unfold simulated_rate. destruct (String.eqb t pivot) eqn:E.
  - apply String.eqb_eq in E. subst.
    assert (pr = rate) by congruence. subst.
    apply add_zero_round. reflexivity.
  - rewrite Hz. rewrite RoundFacts.max_ninf, RoundFacts.min_pinf.
    destruct (_ <? _)%float; now apply add_zero_round.
Qed.

Lemma dict_set_in {V : Type} (d : dict string V) (k k' : string) (v v' : V) :
  In (k', v') (dict_set String.eqb d k v) -> In (k', v') d \/ v' = v.
Proof.
  induction d as [| [k0 v0] d IH]; simpl.
  - intros [[= _ <-] | []]. now right.
  - destruct (String.eqb k0 k).
    + intros [[= _ <-] | H]; [now right | left; now right].
    + intros [H | H]; [left; now left |].
      destruct (IH H) as [H' | H']; [left; now right | now right].
Qed.

Section SimulateOutcome.

Variables (pivot : string) (pivot_year pivot_rate s fs fl cs cl : pyfloat).

Let body : curve -> string * pyfloat -> result curve :=
  fun simulated_curve '(tenor, original_rate) =>
    t_year <- getitem tenor_to_years tenor ;;
    let delta_years := (t_year - pivot_year)%float in
    let new_rate :=
      if String.eqb tenor pivot then (pivot_rate + s)%float
      else if (t_year <? pivot_year)%float then
        let raw_change := (s + delta_years * fs)%float in
        let capped_change := Float.max raw_change cs in
        (original_rate + capped_change)%float
      else
        let raw_change := (s + delta_years * fl)%float in
        let capped_change := Float.min raw_change cl in
        (original_rate + capped_change)%float in
    Ok (dict_set String.eqb simulated_curve tenor (Float.round new_rate 6)).

(** The loop ends normally when every key is a tenor of the grid ... *)
Lemma simulate_loop_total (l acc : curve) :
  (forall k, In k (keys l) -> In k grid) ->
  exists r, for_each (items l) acc body = Ok r.
Proof.
  revert acc. induction l as [| [k v] l IH]; intros acc G.
  - now exists acc.
  - unfold items in *. cbn [for_each body].
    rewrite (getitem_years k) by (apply G; now left). cbn [bind].
    apply IH. intros k' H. apply G. now right.
Qed.

(** ... otherwise it raises [KeyError] for a key outside the grid. *)
Lemma simulate_loop_error (l acc : curve) (e : exn) :
  for_each (items l) acc body = Raise e ->
  exists k, In k (keys l) /\ ~ In k grid /\ e = KeyError k.
Proof.
  revert acc. induction l as [| [k v] l IH]; intros acc; [discriminate |].
  unfold items in *. cbn [for_each body].
  destruct (getitem tenor_to_years k) as [y | e'] eqn:E; cbn [bind].
  - intro H. destruct (IH _ H) as [k' [H1 H2]].
    exists k'. split; [now right | exact H2].
  - intros [= <-]. apply getitem_raise in E. destruct E as [E ->].
    exists k. split; [now left | now split].
Qed.

Lemma simulate_loop_keys (l acc r : curve) :
  for_each (items l) acc body = Ok r ->
  forall k, In k (keys l) -> In k grid.
Proof.
  revert acc. induction l as [| [k0 v0] l IH]; intros acc H k; [intros [] |].
  unfold items in *. cbn [for_each body] in H.
  destruct (getitem tenor_to_years k0) as [y | e'] eqn:E; cbn [bind] in H;
    [| discriminate].
  intros [<- | Hk].
  - apply getitem_ok in E. apply (dict_get_keys _ _ _ E).
  - apply (IH _ H k Hk).
Qed.

(** Every rate the loop stores is rounded to six digits. *)
Lemma simulate_loop_rounded (l acc r : curve) :
  (forall k v, In (k, v) acc -> Float.round v 6 = v) ->
  for_each (items l) acc body = Ok r ->
  forall k v, In (k, v) r -> Float.round v 6 = v.
Proof.
  revert acc. induction l as [| [k0 v0] l IH]; intros acc Hacc.
  - intros [= <-]. exact Hacc.
  - unfold items in *. cbn [for_each body].
    destruct (getitem tenor_to_years k0) as [y | e'] eqn:E; cbn [bind];
      [| discriminate].
    apply IH. intros k v H. apply dict_set_in in H.
    destruct H as [H | ->]; [apply (Hacc k v H) | apply RoundFacts.round_idem].
Qed.

End SimulateOutcome.

(** X5. [simulate_yield_curve] returns a curve exactly when the pivot is a
    tenor of the grid, the base curve defines the pivot and every tenor of
    the base curve is in the grid; every failure is a [KeyError], for the
    pivot or for a tenor of the base curve outside the grid. *)
Theorem simulate_succeeds_iff (base : curve) (pivot : string)
    (s fs fl cs cl : pyfloat) :
  ((exists simulated,
      simulate_yield_curve base pivot s fs fl cs cl = Ok simulated) <->
   In pivot grid /\ In pivot (keys base) /\
   forall k, In k (keys base) -> In k grid) /\
  (forall e,
     simulate_yield_curve base pivot s fs fl cs cl = Raise e ->
     exists k, e = KeyError k /\
               (k = pivot /\ (~ In pivot grid \/ ~ In pivot (keys base)) \/
                In k (keys base) /\ ~ In k grid)).
Proof.
  unfold simulate_yield_curve.
  destruct (getitem tenor_to_years pivot) as [py | e1] eqn:E1; cbn [bind].
  - assert (P : In pivot grid)
      by (apply getitem_ok in E1; apply (dict_get_keys _ _ _ E1)).
    destruct (getitem base pivot) as [pr | e2] eqn:E2; cbn [bind].
    + assert (Pb : In pivot (keys base))
        by (apply getitem_ok in E2; apply (dict_get_keys _ _ _ E2)).
      split; [split |].
      * intros [sim H]. split; [exact P |]. split; [exact Pb |].
        exact (simulate_loop_keys pivot py pr s fs fl cs cl base [] sim H).
      * intros [_ [_ G]].
        exact (simulate_loop_total pivot py pr s fs fl cs cl base [] G).
      * intros e H.
        destruct (simulate_loop_error pivot py pr s fs fl cs cl base [] e H)
          as [k [Hk [Hg ->]]].
        exists k. split; [reflexivity |]. right. now split.
    + apply getitem_raise in E2. destruct E2 as [E2 ->].
      split; [split |].
      * intros [sim H]. discriminate.
      * intros [_ [Pb _]]. contradiction.
      * intros e [= <-]. exists pivot. split; [reflexivity |]. left.
        split; [reflexivity | now right].
  - apply getitem_raise in E1. destruct E1 as [E1 ->].
    split; [split |].
    + intros [sim H]. discriminate.
    + intros [P _]. contradiction.
    + intros e [= <-]. exists pivot. split; [reflexivity |]. left.
      split; [reflexivity | now left].
Qed.

Lemma eqb_refl (x : pyfloat) : is_nan x = false -> Float.eqb x x = true.
Proof.
  destruct x as [a| | |]; try discriminate; try reflexivity.
  intros _. apply Qeq_bool_iff. reflexivity.
Qed.

(** X6. Every rate of a curve returned by [simulate_yield_curve] that is
    not NaN has at most six decimal digits: rounding it to six digits again
    gives an equal number, [round(r, 6) == r]. *)
Theorem simulated_rates_six_digits (base simulated : curve) (pivot : string)
    (s fs fl cs cl : pyfloat) :
  simulate_yield_curve base pivot s fs fl cs cl = Ok simulated ->
  forall t r,
    getitem simulated t = Ok r -> is_nan r = false ->
    (Float.round r 6 ==? r)%float = true.
Proof.
  unfold simulate_yield_curve.
  destruct (getitem tenor_to_years pivot) as [py | e1]; cbn [bind];
    [| discriminate].
  destruct (getitem base pivot) as [pr | e2]; cbn [bind]; [| discriminate].
  intros H t r Ht Hn. apply getitem_ok, dict_get_in in Ht.
  rewrite (simulate_loop_rounded pivot py pr s fs fl cs cl base [] simulated)
    with (k := t); trivial.
  - now apply eqb_refl.
  - intros k v [].
Qed.

(** ** More on the reverse engineering *)

(** X7. The base rates away from the pivot are never used: two base curves
    over the same tenors, in the same order, that agree at the pivot have
    the same outcome against the same simulated curve, the same record or
    the same exception. *)
Theorem other_base_rates_unused (base1 base2 sim : curve) (pivot : string) :
  keys base1 = keys base2 ->
  getitem base1 pivot = getitem base2 pivot ->
  reverse_engineer_factors base1 sim pivot =
  reverse_engineer_factors base2 sim pivot.
Proof.
  intros K E.
  destruct (reverse_engineer_factors base2 sim pivot) as [r | e] eqn:H2;
    rewrite <- H2; now apply recover_base_irrelevant.
Qed.

Lemma first_repeated_in (l : list pyfloat) (default : pyfloat) :
  first_repeated l default = default \/
  In (first_repeated l default) l /\
  (1 < occurrences (first_repeated l default) l)%Z.
Proof.
  unfold first_repeated.
  destruct (find _ l) as [v |] eqn:E; [right | now left].
  apply find_some in E. destruct E as [Hin Hc]. split; [exact Hin |].
  now apply Z.ltb_lt.
Qed.

(** X10. A reported cap is an observed change: in a record returned on
    curves total over the grid, [short_end_cap] is negative infinity or
    [round(round(simulated[t] - base[pivot], 8), 6)] for a tenor [t] below
    the pivot whose 8-digit value occurs at least twice on that side;
    likewise for [long_end_cap], positive infinity and the tenors above the
    pivot. *)
Theorem reported_cap_is_observed (base sim : curve) (pivot : string)
    (r : factors) :
  total_over_grid base -> total_over_grid sim -> In pivot grid ->
  reverse_engineer_factors base sim pivot = Ok r ->
  (short_end_cap r = NInf \/
   exists t,
     In t (short_side base pivot) /\
     let v := Float.round (rate_of sim t - rate_of base pivot) 8 in
     short_end_cap r = Float.round v 6 /\
     (1 < occurrences v
            (rounded_changes base sim pivot (short_side base pivot)))%Z) /\
  (long_end_cap r = PInf \/
   exists t,
     In t (long_side base pivot) /\
     let v := Float.round (rate_of sim t - rate_of base pivot) 8 in
     long_end_cap r = Float.round v 6 /\
     (1 < occurrences v
            (rounded_changes base sim pivot (long_side base pivot)))%Z).
Proof.
  intros Tb Ts P H.
  destruct (recover_ok_inv base sim pivot r Tb Ts P H)
    as [sm [lm [_ [_ ->]]]].
  cbn [short_end_cap long_end_cap]. split.
  - destruct (first_repeated_in
                (rounded_changes base sim pivot (short_side base pivot)) NInf)
      as [-> | [Hin Hc]]; [now left | right].
    unfold rounded_changes in Hin at 2. apply in_map_iff in Hin.
    destruct Hin as [t [Ht Hin]]. exists t. split; [exact Hin |].
    cbv zeta. rewrite Ht. now split.
  - destruct (first_repeated_in
                (rounded_changes base sim pivot (long_side base pivot)) PInf)
      as [-> | [Hin Hc]]; [now left | right].
    unfold rounded_changes in Hin at 2. apply in_map_iff in Hin.
    destruct Hin as [t [Ht Hin]]. exists t. split; [exact Hin |].
    cbv zeta. rewrite Ht. now split.
Qed.

(** X9. The shift of a round trip: when [simulate_yield_curve] returns a
    curve for a base curve total over the grid and
    [reverse_engineer_factors] returns a record for that curve, the record
    names the same pivot and its [shift_value] is
    [round(round(base[pivot] + shift, 6) - base[pivot], 6)], whatever the
    factors and the caps were. *)
Theorem shift_round_trip (base simulated : curve) (pivot : string)
    (s fs fl cs cl : pyfloat) (r : factors) :
  total_over_grid base -> In pivot grid ->
  simulate_yield_curve base pivot s fs fl cs cl = Ok simulated ->
  reverse_engineer_factors base simulated pivot = Ok r ->
  exists bp,
    getitem base pivot = Ok bp /\
    pivot_tenor r = pivot /\
    shift_value r = Float.round (Float.round (bp + s) 6 - bp) 6.
Proof.
  intros T P Hsim H.
  destruct (simulate_lookup base pivot s fs fl cs cl T P)
    as [sim [pr [Hsim' [Hpr [_ Hget]]]]].
  assert (sim = simulated) by congruence. subst sim.
  pose proof (Hget pivot pr Hpr) as Hv. rewrite simulated_rate_pivot in Hv.
  destruct (recover_shift base simulated pivot r H)
    as [bp [sp [Hb [Hs [Hr Hp]]]]].
  exists bp. split; [exact Hb |]. split; [exact Hp |].
  assert (bp = pr) by congruence. subst bp.
  assert (sp = Float.round (pr + s) 6) by congruence. subst sp. exact Hr.
Qed.

Section RecoverOutcome.

Variables (base sim : curve) (pivot : string) (py bp sh : pyfloat).

Let sample_body : samples -> string -> result samples :=
  fun '(short_x, short_y, long_x, long_y) tenor =>
    if String.eqb tenor pivot then
      Ok (short_x, short_y, long_x, long_y)
    else
      t_year <- getitem tenor_to_years tenor ;;
      let delta_years := (t_year - py)%float in
      base_rate <- getitem base tenor ;;
      sim_rate <- getitem sim tenor ;;
      let implied_change := (sim_rate - (bp + sh))%float in
      if (t_year <? py)%float then
        Ok (short_x ++ [[delta_years]], short_y ++ [implied_change],
            long_x, long_y)
      else
        Ok (short_x, short_y,
            long_x ++ [[delta_years]], long_y ++ [implied_change]).

(** The first loop ends normally only if every tenor it meets, the pivot
    apart, is in the grid and in both curves; otherwise it raises
    [KeyError] for such a tenor. *)
Let known (t : string) : Prop :=
  In t grid /\ In t (keys base) /\ In t (keys sim).

Let outcome (l : list string) (r : result samples) : Prop :=
  match r with
  | Ok _ => forall t, In t l -> t <> pivot -> known t
  | Raise e =>
      exists k, e = KeyError k /\ In k l /\ k <> pivot /\ ~ known k
  end.

Lemma outcome_cons (t : string) (l : list string) (r : result samples) :
  (t <> pivot -> known t) -> outcome l r -> outcome (t :: l) r.
Proof.
  intros Ht H. destruct r as [st | e]; simpl in *.
  - intros u [<- | Hu] Hn; [now apply Ht | now apply H].
  - destruct H as [k [-> [Hk Hr]]]. exists k.
    split; [reflexivity |]. split; [now right | exact Hr].
Qed.

Lemma sample_loop_outcome (l : list string) (st : samples) :
  outcome l (for_each l st sample_body).
Proof.
  revert st. induction l as [| t l IH]; intros [[[sx sy] lx] ly].
  - simpl. intros t [].
  - cbn [for_each]. unfold sample_body at 1. cbn beta iota.
    destruct (String.eqb t pivot) eqn:E; cbn [bind].
    + apply String.eqb_eq in E. apply outcome_cons; [| apply IH].
      intro Hn. contradiction.
    + apply String.eqb_neq in E.
      assert (Bad : forall k', ~ In t k' ->
                 (k' = grid \/ k' = keys base \/ k' = keys sim) ->
                 outcome (t :: l) (Raise (KeyError t))).
      { intros k' Hn Hk'. exists t. split; [reflexivity |].
        split; [now left |]. split; [exact E |].
        intros [H1 [H2 H3]]. destruct Hk' as [-> | [-> | ->]]; contradiction. }
      destruct (getitem tenor_to_years t) as [y | e] eqn:Ey; cbn [bind];
        [| apply getitem_raise in Ey; destruct Ey as [Ey ->];
           apply (Bad grid); auto].
      destruct (getitem base t) as [b | e] eqn:Eb; cbn [bind];
        [| apply getitem_raise in Eb; destruct Eb as [Eb ->];
           apply (Bad (keys base)); auto].
      destruct (getitem sim t) as [v | e] eqn:Es; cbn [bind];
        [| apply getitem_raise in Es; destruct Es as [Es ->];
           apply (Bad (keys sim)); auto].
      assert (Ht : known t).
      { apply getitem_ok in Ey, Eb, Es.
        split; [apply (dict_get_keys _ _ _ Ey) |].
        split; [apply (dict_get_keys _ _ _ Eb) | apply (dict_get_keys _ _ _ Es)]. }
      destruct (y <? py)%float; cbn [bind];
        (apply outcome_cons; [intros _; exact Ht | apply IH]).
Qed.

Variables (short_factor long_factor : pyfloat).

Let change_body : dict pyfloat pyfloat -> string -> result (dict pyfloat pyfloat) :=
  fun changes tenor =>
    if String.eqb tenor pivot then Ok changes
    else
      t_year <- getitem tenor_to_years tenor ;;
      let delta_years := (t_year - py)%float in
      let predicted_change :=
        (sh + delta_years * (if (t_year <? py)%float
                             then short_factor else long_factor))%float in
      sim_rate <- getitem sim tenor ;;
      let actual_change := (sim_rate - bp)%float in
      Ok (dict_set Float.eqb changes t_year actual_change).

(** The second loop cannot fail where the first has passed. *)
Lemma change_loop_total (l : list string) (acc : dict pyfloat pyfloat) :
  (forall t, In t l -> t <> pivot -> In t grid /\ In t (keys sim)) ->
  exists r, for_each l acc change_body = Ok r.
Proof.
  revert acc. induction l as [| t l IH]; intros acc H; [now exists acc |].
  assert (H' : forall u, In u l -> u <> pivot -> In u grid /\ In u (keys sim))
    by (intros u Hu; apply H; now right).
  cbn [for_each]. unfold change_body at 1.
  destruct (String.eqb t pivot) eqn:E; cbn [bind]; [apply IH, H' |].
  apply String.eqb_neq in E.
  destruct (H t (or_introl eq_refl) E) as [Hg Hs].
  rewrite (getitem_years t Hg), (getitem_rate_of sim t Hs). cbn [bind].
  apply IH, H'.
Qed.

End RecoverOutcome.

Lemma fit_side_error (x : list (list pyfloat)) (y : list pyfloat) (e : exn) :
  fit_side x y = Raise e -> e = ValueError.
Proof.
  unfold fit_side. destruct x as [| row x]; [discriminate |].
  unfold LinearRegression_fit.
  destruct (negb _); [now intros [= <-] |].
  destruct (negb _); [now intros [= <-] |].
  cbn [bind]. discriminate.
Qed.

Lemma collect_samples_outcome (base sim : curve) (pivot : string)
    (py bp sh : pyfloat) :
  match collect_samples base sim pivot py bp sh with
  | Ok _ =>
      forall t, In t (keys base) -> t <> pivot ->
                In t grid /\ In t (keys base) /\ In t (keys sim)
  | Raise e =>
      exists k, e = KeyError k /\ In k (keys base) /\ k <> pivot /\
                ~ (In k grid /\ In k (keys base) /\ In k (keys sim))
  end.
Proof.
  exact (sample_loop_outcome base sim pivot py bp sh (keys base)
           ([], [], [], [])).
Qed.

Lemma collect_samples_known (base sim : curve) (pivot : string) (bp sh : pyfloat) :
  (forall t, In t (keys base) -> In t grid /\ In t (keys sim)) ->
  exists st, collect_samples base sim pivot (years pivot) bp sh = Ok st.
Proof.
  intro H. eexists.
  apply (sample_loop_ok base sim pivot bp sh (keys base) [] [] [] []).
  intros t Ht. destruct (H t Ht). tauto.
Qed.

Lemma collect_changes_total (base sim : curve) (pivot : string)
    (py bp sh f1 f2 : pyfloat) :
  (forall t, In t (keys base) -> In t grid /\ In t (keys sim)) ->
  exists r, collect_changes base sim pivot py bp sh f1 f2 = Ok r.
Proof.
  intro H.
  apply (change_loop_total sim pivot py bp sh f1 f2 (keys base) []).
  intros t Ht _. apply H, Ht.
Qed.

(** X8. [reverse_engineer_factors] raises [KeyError] exactly when the base
    curve omits the pivot or defines a tenor that is outside the grid or
    missing from the simulated curve.  In every other case it returns a
    record, unless the regression rejects its sample with [ValueError]. *)
Theorem recover_key_errors (base sim : curve) (pivot : string) :
  let known :=
    In pivot (keys base) /\
    forall t, In t (keys base) -> In t grid /\ In t (keys sim) in
  ((exists k, reverse_engineer_factors base sim pivot = Raise (KeyError k))
   <-> ~ known) /\
  (known ->
   (exists r, reverse_engineer_factors base sim pivot = Ok r) \/
   reverse_engineer_factors base sim pivot = Raise ValueError).
Proof.
  intro known.
  assert (B : known ->
              (exists r, reverse_engineer_factors base sim pivot = Ok r) \/
              reverse_engineer_factors base sim pivot = Raise ValueError).
  { intros [Pb H]. destruct (H pivot Pb) as [P Ps].
    rewrite reverse_engineer_factors_eq, (getitem_years pivot P),
      (getitem_rate_of base pivot Pb), (getitem_rate_of sim pivot Ps).
    cbn [bind]. cbv zeta.
    destruct (collect_samples_known base sim pivot (rate_of base pivot)
                (rate_of sim pivot - rate_of base pivot)%float H)
      as [[[[sx sy] lx] ly] ->].
    cbn [bind].
    destruct (fit_side sx sy) as [sm | e] eqn:Es; cbn [bind];
      [| right; now rewrite (fit_side_error _ _ _ Es)].
    destruct (fit_side lx ly) as [lm | e] eqn:El; cbn [bind];
      [| right; now rewrite (fit_side_error _ _ _ El)].
    destruct (collect_changes_total base sim pivot (years pivot)
                (rate_of base pivot)
                (rate_of sim pivot - rate_of base pivot)%float
                (factor_of sm) (factor_of lm) H) as [changes ->].
    cbn [bind]. left.
    destruct (tally changes (years pivot) ([], [])) as [a b]. eauto. }
  split; [| exact B]. split.
  - intros [k Hk] K. destruct (B K) as [[r Hr] | Hv]; congruence.
  - intro NK. rewrite reverse_engineer_factors_eq.
    destruct (getitem tenor_to_years pivot) as [py | e] eqn:Ey; cbn [bind];
      [| apply getitem_raise in Ey; destruct Ey as [_ ->]; eauto].
    destruct (getitem base pivot) as [bp | e] eqn:Eb; cbn [bind];
      [| apply getitem_raise in Eb; destruct Eb as [_ ->]; eauto].
    destruct (getitem sim pivot) as [sp | e] eqn:Es; cbn [bind];
      [| apply getitem_raise in Es; destruct Es as [_ ->]; eauto].
    cbv zeta.
    pose proof (collect_samples_outcome base sim pivot py bp (sp - bp)%float)
      as O.
    destruct (collect_samples base sim pivot py bp (sp - bp)%float)
      as [st | e]; cbn [bind].
    + exfalso. apply NK.
      apply getitem_ok in Ey, Eb, Es.
      pose proof (dict_get_keys _ _ _ Ey) as P.
      pose proof (dict_get_keys _ _ _ Eb) as Pb.
      pose proof (dict_get_keys _ _ _ Es) as Ps.
      split; [exact Pb |]. intros t Ht.
      destruct (string_dec t pivot) as [-> | Hn]; [now split |].
      destruct (O t Ht Hn) as [H1 [_ H3]]. now split.
    + destruct O as [k [-> _]]. eauto.
Qed.

(** ** Plotting *)

Lemma comprehension_ok {A B : Type} (l : list A) (f : A -> result B)
    (g : A -> B) :
  (forall a, In a l -> f a = Ok (g a)) -> comprehension l f = Ok (map g l).
Proof.
  induction l as [| a l IH]; intro H; [reflexivity |].
  cbn [comprehension map]. rewrite (H a) by now left. cbn [bind].
  rewrite IH by (intros b Hb; apply H; now right). reflexivity.
Qed.

(** A comprehension fails with the error of one of its elements, and
    succeeds only if every element does. *)
Lemma comprehension_outcome {A B : Type} (l : list A) (f : A -> result B) :
  match comprehension l f with
  | Ok bs => forall a, In a l -> exists b, f a = Ok b
  | Raise e => exists a, In a l /\ f a = Raise e
  end.
Proof.
  induction l as [| a l IH]; [intros a [] |].
  cbn [comprehension]. destruct (f a) as [b | e] eqn:E; cbn [bind].
  - destruct (comprehension l f) as [bs | e]; cbn [bind].
    + intros a' [<- | H]; [eauto | now apply IH].
    + destruct IH as [a' [H1 H2]]. exists a'. split; [now right | exact H2].
  - exists a. split; [now left | exact E].
Qed.

Lemma plot_curves_known (base sim : curve) :
  (forall t, In t (keys base) -> In t grid /\ In t (keys sim)) ->
  plot_curves base sim =
  Ok (map years (keys base), map (rate_of base) (keys base),
      map (rate_of sim) (keys base)).
Proof.
  intro H. unfold plot_curves.
  rewrite (comprehension_ok (keys base) _ years)
    by (intros t Ht; apply getitem_years, H, Ht).
  cbn [bind].
  rewrite (comprehension_ok (keys base) _ (rate_of base))
    by (intros t Ht; now apply getitem_rate_of).
  cbn [bind].
  rewrite (comprehension_ok (keys base) _ (rate_of sim))
    by (intros t Ht; apply getitem_rate_of, H, Ht).
  reflexivity.
Qed.

(** X12. [plot_curves] builds its series exactly when every tenor of the
    base curve is in the grid and in the simulated curve; the three series
    then run over the tenors of the base curve in its order.  Every failure
    is a [KeyError] for a tenor of the base curve that is outside the grid
    or missing from the simulated curve. *)
Theorem plot_curves_succeeds_iff (base sim : curve) :
  ((exists fig, plot_curves base sim = Ok fig) <->
   forall t, In t (keys base) -> In t grid /\ In t (keys sim)) /\
  (forall fig,
     plot_curves base sim = Ok fig ->
     fig = (map years (keys base), map (rate_of base) (keys base),
            map (rate_of sim) (keys base))) /\
  (forall e,
     plot_curves base sim = Raise e ->
     exists k, e = KeyError k /\ In k (keys base) /\
               (~ In k grid \/ ~ In k (keys sim))).
Proof.
  assert (Hok : forall fig, plot_curves base sim = Ok fig ->
                forall t, In t (keys base) -> In t grid /\ In t (keys sim)).
  { unfold plot_curves. intros fig H t Ht.
    pose proof (comprehension_outcome (keys base)
                  (fun t => getitem tenor_to_years t)) as Ox.
    destruct (comprehension (keys base) (fun t => getitem tenor_to_years t));
      cbn [bind] in H; [| discriminate].
    destruct (comprehension (keys base) (fun t => getitem base t));
      cbn [bind] in H; [| discriminate].
    pose proof (comprehension_outcome (keys base)
                  (fun t => getitem sim t)) as Os.
    destruct (comprehension (keys base) (fun t => getitem sim t));
      cbn [bind] in H; [| discriminate].
    destruct (Ox t Ht) as [y Hy]. destruct (Os t Ht) as [v Hv].
    apply getitem_ok in Hy, Hv.
    split; [apply (dict_get_keys _ _ _ Hy) | apply (dict_get_keys _ _ _ Hv)]. }
  split; [split | split].
  - intros [fig H]. exact (Hok fig H).
  - intro H. eexists. apply (plot_curves_known base sim H).
  - intros fig H. rewrite (plot_curves_known base sim (Hok fig H)) in H.
    congruence.
  - unfold plot_curves. intros e H.
    pose proof (comprehension_outcome (keys base)
                  (fun t => getitem tenor_to_years t)) as Ox.
    destruct (comprehension (keys base) (fun t => getitem tenor_to_years t));
      cbn [bind] in H.
    + pose proof (comprehension_outcome (keys base)
                    (fun t => getitem base t)) as Ob.
      destruct (comprehension (keys base) (fun t => getitem base t));
        cbn [bind] in H.
      * pose proof (comprehension_outcome (keys base)
                      (fun t => getitem sim t)) as Os.
        destruct (comprehension (keys base) (fun t => getitem sim t));
          cbn [bind] in H; [discriminate |].
        injection H as <-. destruct Os as [k [Hk Hr]].
        apply getitem_raise in Hr. destruct Hr as [Hr ->].
        exists k. split; [reflexivity |]. split; [exact Hk | now right].
      * injection H as <-. destruct Ob as [k [Hk Hr]].
        apply getitem_raise in Hr. destruct Hr as [Hr _]. contradiction.
    + injection H as <-. destruct Ox as [k [Hk Hr]].
      apply getitem_raise in Hr. destruct Hr as [Hr ->].
      exists k. split; [reflexivity |]. split; [exact Hk | now left].
Qed.

Lemma dict_set_keys {V : Type} (d : dict string V) (k k' : string) (v : V) :
  In k' (keys (dict_set String.eqb d k v)) <-> In k' (keys d) \/ k' = k.
Proof.
  induction d as [| [k0 v0] d IH]; simpl.
  - split; [intros [<- | []]; now right | intros [[] | ->]; now left].
  - destruct (String.eqb k0 k) eqn:E; simpl.
    + apply String.eqb_eq in E. subst. split; [tauto |].
      intros [H | ->]; [exact H | now left].
    + rewrite IH. tauto.
Qed.

Section SimulateKeys.

Variables (pivot : string) (pivot_year pivot_rate s fs fl cs cl : pyfloat).

Let body : curve -> string * pyfloat -> result curve :=
  fun simulated_curve '(tenor, original_rate) =>
    t_year <- getitem tenor_to_years tenor ;;
    let delta_years := (t_year - pivot_year)%float in
    let new_rate :=
      if String.eqb tenor pivot then (pivot_rate + s)%float
      else if (t_year <? pivot_year)%float then
        let raw_change := (s + delta_years * fs)%float in
        let capped_change := Float.max raw_change cs in
        (original_rate + capped_change)%float
      else
        let raw_change := (s + delta_years * fl)%float in
        let capped_change := Float.min raw_change cl in
        (original_rate + capped_change)%float in
    Ok (dict_set String.eqb simulated_curve tenor (Float.round new_rate 6)).

(** The curve the loop returns has the keys it started with and the keys
    it has met, and no other. *)
Lemma simulate_loop_key_set (l acc r : curve) :
  for_each (items l) acc body = Ok r ->
  forall k, In k (keys r) <-> In k (keys acc) \/ In k (keys l).
Proof.
  revert acc. induction l as [| [k0 v0] l IH]; intros acc.
  - intros [= <-] k. simpl. tauto.
  - unfold items in *. cbn [for_each body].
    destruct (getitem tenor_to_years k0) as [y | e'] eqn:E; cbn [bind];
      [| discriminate].
    intros H k. rewrite (IH _ H k), dict_set_keys. simpl.
    split; [intros [[H1 | ->] | H1] | intros [H1 | [<- | H1]]]; tauto.
Qed.

End SimulateKeys.

(** X11. A simulated curve can always be plotted against its base curve:
    whenever [simulate_yield_curve] returns a curve, it has the tenors of
    the base curve and no other, and [plot_curves] on the two returns
    series over the tenors of the base curve, in its order. *)
Theorem plot_after_simulate (base simulated : curve) (pivot : string)
    (s fs fl cs cl : pyfloat) :
  simulate_yield_curve base pivot s fs fl cs cl = Ok simulated ->
  (forall t, In t (keys simulated) <-> In t (keys base)) /\
  plot_curves base simulated =
  Ok (map years (keys base), map (rate_of base) (keys base),
      map (rate_of simulated) (keys base)).
Proof.
  unfold simulate_yield_curve.
  destruct (getitem tenor_to_years pivot) as [py | e1]; cbn [bind];
    [| discriminate].
  destruct (getitem base pivot) as [pr | e2]; cbn [bind]; [| discriminate].
  intro H.
  pose proof (simulate_loop_keys pivot py pr s fs fl cs cl base [] simulated H)
    as G.
  pose proof (simulate_loop_key_set pivot py pr s fs fl cs cl base []
                simulated H) as K.
  assert (K' : forall t, In t (keys simulated) <-> In t (keys base)).
  { intro t. rewrite (K t). simpl. tauto. }
  split; [exact K' |].
  apply plot_curves_known. intros t Ht.
  split; [apply G, Ht | apply K', Ht].
Qed.

(** ** The application *)

Lemma custom_base_eq (number_input : string -> pyfloat -> pyfloat) :
  custom_base number_input =
  Ok (map (fun '(k, v) => (k, number_input ("Base Yield for " ++ k)%string v))
        default_base_curve).
Proof. reflexivity. Qed.

Lemma sim_curve_eq (number_input : string -> pyfloat -> pyfloat)
    (h : string -> pyfloat -> pyfloat) :
  sim_curve number_input (map (fun '(k, v) => (k, h k v)) default_base_curve) =
  Ok (map (fun '(k, v) =>
             (k, number_input ("Simulated Yield for " ++ k)%string
                   (h k v + Fin (1 # 1000))%float))
        default_base_curve).
Proof. reflexivity. Qed.

Lemma total_map_values (h : string -> pyfloat -> pyfloat) (c : curve) :
  total_over_grid c -> total_over_grid (map (fun '(k, v) => (k, h k v)) c).
Proof.
  intros [N G]. unfold total_over_grid. now rewrite keys_map_values.
Qed.

(** X13. The mode "Simulate Curve" never fails: whatever numbers the form
    holds, and for each pivot the select box offers, the simulation returns
    a curve over the eight tenors and the chart gets its three series over
    the same tenors. *)
Theorem simulate_mode_never_fails
    (number_input : string -> pyfloat -> pyfloat) (pivot : string) :
  In pivot (keys default_base_curve) ->
  exists base simulated,
    custom_base number_input = Ok base /\
    keys base = keys default_base_curve /\
    keys simulated = keys default_base_curve /\
    simulate_mode number_input pivot =
    Ok (simulated,
        (map years (keys default_base_curve),
         map (rate_of base) (keys default_base_curve),
         map (rate_of simulated) (keys default_base_curve))).
Proof.
  intro P. unfold simulate_mode. rewrite custom_base_eq. cbn [bind].
  set (base := map _ default_base_curve).
  assert (T : total_over_grid base) by apply total_map_values, default_total.
  assert (K : keys base = keys default_base_curve) by apply keys_map_values.
  assert (Pg : In pivot grid) by (apply default_total, P).
  destruct (simulate_lookup base pivot
              (number_input "Shift Value" (Fin (1 # 1000)))
              (number_input "Short End Factor" (Fin (2 # 1000)))
              (number_input "Long End Factor" (Fin (3 # 1000)))
              (number_input "Short End Cap" (Fin 0))
              (number_input "Long End Cap" (Fin (15 # 10000))) T Pg)
    as [sim [pr [Hsim [_ [Ks _]]]]].
  exists base, sim. split; [reflexivity |]. split; [exact K |].
  split; [now rewrite Ks |].
  cbv zeta. rewrite Hsim. cbn [bind].
  rewrite (plot_curves_known base sim).
  - cbn [bind]. now rewrite K.
  - intros t Ht. split; [apply T, Ht | now rewrite Ks].
Qed.

Lemma recover_known_outcome (base sim : curve) (pivot : string) :
  In pivot (keys base) ->
  (forall t, In t (keys base) -> In t grid /\ In t (keys sim)) ->
  (exists r, reverse_engineer_factors base sim pivot = Ok r) \/
  reverse_engineer_factors base sim pivot = Raise ValueError.
Proof.
  intros Pb H. destruct (H pivot Pb) as [P Ps].
  rewrite reverse_engineer_factors_eq, (getitem_years pivot P),
    (getitem_rate_of base pivot Pb), (getitem_rate_of sim pivot Ps).
  cbn [bind]. cbv zeta.
  destruct (collect_samples_known base sim pivot (rate_of base pivot)
              (rate_of sim pivot - rate_of base pivot)%float H)
    as [[[[sx sy] lx] ly] ->].
  cbn [bind].
  destruct (fit_side sx sy) as [sm | e] eqn:Es; cbn [bind];
    [| right; now rewrite (fit_side_error _ _ _ Es)].
  destruct (fit_side lx ly) as [lm | e] eqn:El; cbn [bind];
    [| right; now rewrite (fit_side_error _ _ _ El)].
  destruct (collect_changes_total base sim pivot (years pivot)
              (rate_of base pivot)
              (rate_of sim pivot - rate_of base pivot)%float
              (factor_of sm) (factor_of lm) H) as [changes ->].
  cbn [bind]. left.
  destruct (tally changes (years pivot) ([], [])) as [a b]. eauto.
Qed.

(** X14. The mode "Reverse Engineer Factors" never meets a missing tenor:
    whatever numbers the form holds, and for each pivot the select box
    offers, both curves of the form have the eight tenors, and the run
    returns a record with the series of the chart unless the regression
    rejects its sample with [ValueError]. *)
Theorem reverse_mode_returns
    (number_input : string -> pyfloat -> pyfloat) (pivot : string) :
  In pivot (keys default_base_curve) ->
  exists base simulated,
    custom_base number_input = Ok base /\
    sim_curve number_input base = Ok simulated /\
    keys base = keys default_base_curve /\
    keys simulated = keys default_base_curve /\
    ((exists r,
        reverse_engineer_factors base simulated pivot = Ok r /\
        reverse_mode number_input pivot =
        Ok (r,
            (map years (keys default_base_curve),
             map (rate_of base) (keys default_base_curve),
             map (rate_of simulated) (keys default_base_curve)))) \/
     (reverse_engineer_factors base simulated pivot = Raise ValueError /\
      reverse_mode number_input pivot = Raise ValueError)).
Proof.
  intros P. unfold reverse_mode. rewrite custom_base_eq. cbn [bind].
  rewrite sim_curve_eq. cbn [bind].
  set (base := map _ default_base_curve).
  set (sim := map _ default_base_curve).
  assert (Tb : total_over_grid base) by apply total_map_values, default_total.
  assert (Ts : total_over_grid sim) by apply total_map_values, default_total.
  assert (Kb : keys base = keys default_base_curve) by apply keys_map_values.
  assert (Ks : keys sim = keys default_base_curve) by apply keys_map_values.
  assert (Known : forall t, In t (keys base) -> In t grid /\ In t (keys sim)).
  { intros t Ht. split; [apply Tb, Ht | now rewrite Ks, <- Kb]. }
  assert (Pb : In pivot (keys base)) by now rewrite Kb.
  exists base, sim. split; [reflexivity |]. split; [reflexivity |].
  split; [exact Kb |]. split; [exact Ks |].
  destruct (recover_known_outcome base sim pivot Pb Known) as [[r H] | H].
  - left. exists r. split; [exact H |]. rewrite H. cbn [bind].
    rewrite (plot_curves_known base sim Known). cbn [bind]. now rewrite Kb.
  - right. split; [exact H |]. now rewrite H.
Qed.

(** ** The further properties at concrete curves *)

Lemma long_cap_monotone_witness :
  total_over_grid default_base_curve /\ finite_rates default_base_curve /\
  In "2Y" grid /\ is_finite (Fin (1 # 1000)) = true /\
  is_finite (Fin (3 # 1000)) = true /\ Float.le (Fin (15 # 10000)) PInf /\
  exists sim1 sim2,
    simulate_yield_curve default_base_curve "2Y" (Fin (1 # 1000))
      (Fin (2 # 1000)) (Fin (3 # 1000)) (Fin 0) (Fin (15 # 10000)) = Ok sim1 /\
    simulate_yield_curve default_base_curve "2Y" (Fin (1 # 1000))
      (Fin (2 # 1000)) (Fin (3 # 1000)) (Fin 0) PInf = Ok sim2 /\
    forall t,
      In t grid -> (years t >? years "2Y")%float = true ->
      exists r1 r2,
        getitem sim1 t = Ok r1 /\ getitem sim2 t = Ok r2 /\ Float.le r1 r2.
Proof.
  pose proof default_total as T. pose proof default_finite as F.
  assert (P : In "2Y" grid) by (apply in_grid_b; reflexivity).
  repeat (split; [first [exact T | exact F | exact P | reflexivity] |]).
  exact (long_cap_monotone default_base_curve "2Y" (Fin (1 # 1000))
           (Fin (2 # 1000)) (Fin (3 # 1000)) (Fin 0) (Fin (15 # 10000)) PInf
           T F P eq_refl eq_refl eq_refl).
Defined.

Lemma caps_bound_rates_witness :
  total_over_grid default_base_curve /\ finite_rates default_base_curve /\
  In "2Y" grid /\ is_finite (Fin (1 # 1000)) = true /\
  is_finite (Fin (2 # 1000)) = true /\ is_finite (Fin (3 # 1000)) = true /\
  is_nan (Fin 0) = false /\ is_nan (Fin (15 # 10000)) = false /\
  exists simulated,
    simulate_yield_curve default_base_curve "2Y" (Fin (1 # 1000))
      (Fin (2 # 1000)) (Fin (3 # 1000)) (Fin 0) (Fin (15 # 10000))
    = Ok simulated /\
    forall t rate,
      getitem default_base_curve t = Ok rate ->
      let ty := years t in
      let py := years "2Y" in
      ((ty <? py)%float = true ->
       exists r, getitem simulated t = Ok r /\
                 Float.le (Float.round (rate + Fin 0) 6) r /\
                 Float.le
                   (Float.round
                      (rate + (Fin (1 # 1000) + (ty - py) * Fin (2 # 1000))) 6)
                   r) /\
      ((ty >? py)%float = true ->
       exists r, getitem simulated t = Ok r /\
                 Float.le r (Float.round (rate + Fin (15 # 10000)) 6) /\
                 Float.le r
                   (Float.round
                      (rate + (Fin (1 # 1000) + (ty - py) * Fin (3 # 1000))) 6)).
Proof.
  pose proof default_total as T. pose proof default_finite as F.
  assert (P : In "2Y" grid) by (apply in_grid_b; reflexivity).
  repeat (split; [first [exact T | exact F | exact P | reflexivity] |]).
  exact (caps_bound_rates default_base_curve "2Y" (Fin (1 # 1000))
           (Fin (2 # 1000)) (Fin (3 # 1000)) (Fin 0) (Fin (15 # 10000))
           T F P eq_refl eq_refl eq_refl eq_refl eq_refl).
Defined.

Lemma infinite_caps_never_bind_witness :
  total_over_grid default_base_curve /\ In "2Y" grid /\
  exists simulated,
    simulate_yield_curve default_base_curve "2Y" (Fin (1 # 1000))
      (Fin (2 # 1000)) (Fin (3 # 1000)) NInf PInf = Ok simulated /\
    forall t rate,
      getitem default_base_curve t = Ok rate ->
      let ty := years t in
      let py := years "2Y" in
      ((ty <? py)%float = true ->
       getitem simulated t =
       Ok (Float.round
             (rate + (Fin (1 # 1000) + (ty - py) * Fin (2 # 1000))) 6)) /\
      ((ty >? py)%float = true ->
       getitem simulated t =
       Ok (Float.round
             (rate + (Fin (1 # 1000) + (ty - py) * Fin (3 # 1000))) 6)).
Proof.
  pose proof default_total as T.
  assert (P : In "2Y" grid) by (apply in_grid_b; reflexivity).
  split; [exact T |]. split; [exact P |].
  exact (infinite_caps_never_bind default_base_curve "2Y" (Fin (1 # 1000))
           (Fin (2 # 1000)) (Fin (3 # 1000)) T P).
Defined.

Lemma identity_scenario_witness :
  total_over_grid base_with_nan /\ In "2Y" grid /\
  exists simulated,
    simulate_yield_curve base_with_nan "2Y" (Fin 0) (Fin 0) (Fin 0) NInf PInf
    = Ok simulated /\
    keys simulated = keys base_with_nan /\
    forall t rate,
      getitem base_with_nan t = Ok rate ->
      getitem simulated t = Ok (Float.round rate 6).
Proof.
  pose proof base_with_nan_total as T.
  assert (P : In "2Y" grid) by (apply in_grid_b; reflexivity).
  split; [exact T |]. split; [exact P |].
  exact (identity_scenario base_with_nan "2Y" T P).
Defined.

Lemma simulated_rates_six_digits_witness :
  simulate_yield_curve default_base_curve "2Y" (Fin (1 # 1000))
    (Fin (2 # 1000)) (Fin (3 # 1000)) (Fin 0) (Fin (15 # 10000))
  = Ok scenario_simulated /\
  forall t r,
    getitem scenario_simulated t = Ok r -> is_nan r = false ->
    (Float.round r 6 ==? r)%float = true.
Proof.
  assert (H : simulate_yield_curve default_base_curve "2Y" (Fin (1 # 1000))
                (Fin (2 # 1000)) (Fin (3 # 1000)) (Fin 0) (Fin (15 # 10000))
              = Ok scenario_simulated) by (vm_compute; reflexivity).
  split; [exact H |].
  exact (simulated_rates_six_digits default_base_curve scenario_simulated "2Y"
           (Fin (1 # 1000)) (Fin (2 # 1000)) (Fin (3 # 1000)) (Fin 0)
           (Fin (15 # 10000)) H).
Defined.

Lemma other_base_rates_unused_witness :
  keys default_base_curve = keys twice_small_change /\
  getitem default_base_curve "1Y" = getitem twice_small_change "1Y" /\
  reverse_engineer_factors default_base_curve scenario_simulated "1Y" =
  reverse_engineer_factors twice_small_change scenario_simulated "1Y".
Proof.
  split; [reflexivity |]. split; [reflexivity |].
  exact (other_base_rates_unused default_base_curve twice_small_change
           scenario_simulated "1Y" eq_refl eq_refl).
Defined.

Lemma shift_round_trip_witness :
  total_over_grid default_base_curve /\ In "2Y" grid /\
  simulate_yield_curve default_base_curve "2Y" (Fin (1 # 1000))
    (Fin (2 # 1000)) (Fin (3 # 1000)) (Fin 0) (Fin (15 # 10000))
  = Ok scenario_simulated /\
  reverse_engineer_factors default_base_curve scenario_simulated "2Y"
  = Ok recovered_scenario_2Y /\
  exists bp,
    getitem default_base_curve "2Y" = Ok bp /\
    pivot_tenor recovered_scenario_2Y = "2Y" /\
    shift_value recovered_scenario_2Y =
    Float.round (Float.round (bp + Fin (1 # 1000)) 6 - bp) 6.
Proof.
  pose proof default_total as T.
  assert (P : In "2Y" grid) by (apply in_grid_b; reflexivity).
  assert (Hs : simulate_yield_curve default_base_curve "2Y" (Fin (1 # 1000))
                 (Fin (2 # 1000)) (Fin (3 # 1000)) (Fin 0) (Fin (15 # 10000))
               = Ok scenario_simulated) by (vm_compute; reflexivity).
  assert (H : reverse_engineer_factors default_base_curve scenario_simulated "2Y"
              = Ok recovered_scenario_2Y) by (vm_compute; reflexivity).
  repeat (split; [assumption |]).
  exact (shift_round_trip default_base_curve scenario_simulated "2Y"
           (Fin (1 # 1000)) (Fin (2 # 1000)) (Fin (3 # 1000)) (Fin 0)
           (Fin (15 # 10000)) recovered_scenario_2Y T P Hs H).
Defined.

Lemma reported_cap_is_observed_witness :
  total_over_grid default_base_curve /\ total_over_grid twice_small_change /\
  In "1Y" grid /\
  reverse_engineer_factors default_base_curve twice_small_change "1Y"
  = Ok recovered_1Y /\
  (short_end_cap recovered_1Y = NInf \/
   exists t,
     In t (short_side default_base_curve "1Y") /\
     let v := Float.round (rate_of twice_small_change t
                           - rate_of default_base_curve "1Y") 8 in
     short_end_cap recovered_1Y = Float.round v 6 /\
     (1 < occurrences v
            (rounded_changes default_base_curve twice_small_change "1Y"
               (short_side default_base_curve "1Y")))%Z) /\
  (long_end_cap recovered_1Y = PInf \/
   exists t,
     In t (long_side default_base_curve "1Y") /\
     let v := Float.round (rate_of twice_small_change t
                           - rate_of default_base_curve "1Y") 8 in
     long_end_cap recovered_1Y = Float.round v 6 /\
     (1 < occurrences v
            (rounded_changes default_base_curve twice_small_change "1Y"
               (long_side default_base_curve "1Y")))%Z).
Proof.
  pose proof default_total as Tb. pose proof twice_small_change_total as Ts.
  assert (P : In "1Y" grid) by (apply in_grid_b; reflexivity).
  pose proof recovered_1Y_ok as H.
  repeat (split; [assumption |]).
  exact (reported_cap_is_observed default_base_curve twice_small_change "1Y"
           recovered_1Y Tb Ts P H).
Defined.

Lemma plot_after_simulate_witness :
  simulate_yield_curve default_base_curve "2Y" (Fin (1 # 1000))
    (Fin (2 # 1000)) (Fin (3 # 1000)) (Fin 0) (Fin (15 # 10000))
  = Ok scenario_simulated /\
  (forall t, In t (keys scenario_simulated) <-> In t (keys default_base_curve)) /\
  plot_curves default_base_curve scenario_simulated =
  Ok (map years (keys default_base_curve),
      map (rate_of default_base_curve) (keys default_base_curve),
      map (rate_of scenario_simulated) (keys default_base_curve)).
Proof.
  assert (H : simulate_yield_curve default_base_curve "2Y" (Fin (1 # 1000))
                (Fin (2 # 1000)) (Fin (3 # 1000)) (Fin 0) (Fin (15 # 10000))
              = Ok scenario_simulated) by (vm_compute; reflexivity).
  split; [exact H |].
  exact (plot_after_simulate default_base_curve scenario_simulated "2Y"
           (Fin (1 # 1000)) (Fin (2 # 1000)) (Fin (3 # 1000)) (Fin 0)
           (Fin (15 # 10000)) H).
Defined.

Lemma simulate_mode_never_fails_witness :
  In "2Y" (keys default_base_curve) /\
  exists base simulated,
    custom_base untouched_form = Ok base /\
    keys base = keys default_base_curve /\
    keys simulated = keys default_base_curve /\
    simulate_mode untouched_form "2Y" =
    Ok (simulated,
        (map years (keys default_base_curve),
         map (rate_of base) (keys default_base_curve),
         map (rate_of simulated) (keys default_base_curve))).
Proof.
  assert (P : In "2Y" (keys default_base_curve)) by (simpl; tauto).
  split; [exact P |].
  exact (simulate_mode_never_fails untouched_form "2Y" P).
Defined.

Lemma reverse_mode_returns_witness :
  In "2Y" (keys default_base_curve) /\
  exists base simulated,
    custom_base untouched_form = Ok base /\
    sim_curve untouched_form base = Ok simulated /\
    keys base = keys default_base_curve /\
    keys simulated = keys default_base_curve /\
    ((exists r,
        reverse_engineer_factors base simulated "2Y" = Ok r /\
        reverse_mode untouched_form "2Y" =
        Ok (r,
            (map years (keys default_base_curve),
             map (rate_of base) (keys default_base_curve),
             map (rate_of simulated) (keys default_base_curve)))) \/
     (reverse_engineer_factors base simulated "2Y" = Raise ValueError /\
      reverse_mode untouched_form "2Y" = Raise ValueError)).
Proof.
  assert (P : In "2Y" (keys default_base_curve)) by (simpl; tauto).
  split; [exact P |].
  exact (reverse_mode_returns untouched_form "2Y" P).
Defined.
